(** * The simulated supervisor of hassio-google-drive-backup

    A shallow embedding of [dev/simulated_supervisor.py]: the class
    [SimulatedSupervisor], its request handlers and its two snapshot locks,
    followed by the properties of the snapshot subsystem. *)

From Stdlib Require Import List String Ascii Strings.Byte ZArith Bool Lia PeanoNat.
Import ListNotations.
Local Open Scope string_scope.
Local Open Scope list_scope.
Local Open Scope Z_scope.
Set Warnings "-register-all".

(** ** Python dictionaries

    A [dict] keeps its keys unique and iterates in insertion order; assigning
    to a key that is present keeps the key's position. *)

Class Eqb (K : Type) := {
  eqb : K -> K -> bool;
  eqb_eq : forall x y, eqb x y = true <-> x = y
}.

#[export] Instance Eqb_string : Eqb string :=
  {| eqb := String.eqb; eqb_eq := String.eqb_eq |}.

Definition option_eqb (x y : option string) : bool :=
  match x, y with
  | Some a, Some b => String.eqb a b
  | None, None => true
  | _, _ => false
  end.

#[export] Instance Eqb_option_string : Eqb (option string).
Proof.
  refine {| eqb := option_eqb |}.
  intros [a|] [b|]; simpl; try (split; congruence).
  rewrite String.eqb_eq. split; congruence.
Defined.

Module PyDict.
Section Dict.
Context {K V : Type} `{Eqb K}.

Definition dict := list (K * V).

(** [d.get(k)] *)
Fixpoint get (k : K) (d : dict) : option V :=
  match d with
  | [] => None
  | (k', v) :: d' => if eqb k k' then Some v else get k d'
  end.

(** [k in d] *)
Definition mem (k : K) (d : dict) : bool :=
  match get k d with Some _ => true | None => false end.

(** [d[k] = v] *)
Fixpoint set (k : K) (v : V) (d : dict) : dict :=
  match d with
  | [] => [(k, v)]
  | (k', v') :: d' =>
      if eqb k k' then (k', v) :: d' else (k', v') :: set k v d'
  end.

(** [del d[k]] on a key that is present; a missing key is the caller's
    [KeyError]. *)
Fixpoint del (k : K) (d : dict) : dict :=
  match d with
  | [] => []
  | (k', v') :: d' => if eqb k k' then del k d' else (k', v') :: del k d'
  end.

(** [list(d.keys())] and [list(d.values())] *)
Definition keys (d : dict) : list K := map fst d.
Definition values (d : dict) : list V := map snd d.
End Dict.
Arguments dict : clear implicits.
End PyDict.
Abbreviation dict := PyDict.dict.

(** ** JSON values, as [request.json()] and [json_response] carry them *)

Inductive Json :=
| JNull
| JBool (b : bool)
| JNum (z : Z)
| JStr (s : string)
| JList (l : list Json)
| JDict (d : list (string * Json)).

Definition bytes := list byte.

(** ** Data model *)

Inductive SnapshotType := Full | Partial.

(** What [parseSnapshotInfo] returns and [self._snapshots] stores. *)
Record SnapshotInfo := {
  slug : string;
  name : string;
  date : string;
  size : Z;
  folders : list string;
  addons : list string;
  protected : bool;
  type : SnapshotType
}.

Definition Addon := dict string Json.

Record SimulatedSupervisor := {
  _auth_token : string;
  _snapshots : dict string SnapshotInfo;
  _snapshot_data : dict string bytes;
  _snapshot_lock : bool;
  _snapshot_inner_lock : bool;
  _entities : dict (option string) Json;
  _events : list (option string * Json);
  _attributes : dict (option string) Json;
  _notification : option Json;
  _min_snapshot_size : Z;
  _max_snapshot_size : Z;
  _ports_server : Z;
  _addon_slug : string;
  _options : Json;
  _username : string;
  _password : string;
  _addons : list Addon
}.

(** Field updates of the server object. *)

Definition with_snapshots (v : dict string SnapshotInfo) (s : SimulatedSupervisor) :=
  {| _auth_token := _auth_token s; _snapshots := v;
     _snapshot_data := _snapshot_data s; _snapshot_lock := _snapshot_lock s;
     _snapshot_inner_lock := _snapshot_inner_lock s; _entities := _entities s;
     _events := _events s; _attributes := _attributes s;
     _notification := _notification s;
     _min_snapshot_size := _min_snapshot_size s;
     _max_snapshot_size := _max_snapshot_size s;
     _ports_server := _ports_server s; _addon_slug := _addon_slug s;
     _options := _options s; _username := _username s;
     _password := _password s; _addons := _addons s |}.

Definition with_snapshot_data (v : dict string bytes) (s : SimulatedSupervisor) :=
  {| _auth_token := _auth_token s; _snapshots := _snapshots s;
     _snapshot_data := v; _snapshot_lock := _snapshot_lock s;
     _snapshot_inner_lock := _snapshot_inner_lock s; _entities := _entities s;
     _events := _events s; _attributes := _attributes s;
     _notification := _notification s;
     _min_snapshot_size := _min_snapshot_size s;
     _max_snapshot_size := _max_snapshot_size s;
     _ports_server := _ports_server s; _addon_slug := _addon_slug s;
     _options := _options s; _username := _username s;
     _password := _password s; _addons := _addons s |}.

Definition with_snapshot_lock (v : bool) (s : SimulatedSupervisor) :=
  {| _auth_token := _auth_token s; _snapshots := _snapshots s;
     _snapshot_data := _snapshot_data s; _snapshot_lock := v;
     _snapshot_inner_lock := _snapshot_inner_lock s; _entities := _entities s;
     _events := _events s; _attributes := _attributes s;
     _notification := _notification s;
     _min_snapshot_size := _min_snapshot_size s;
     _max_snapshot_size := _max_snapshot_size s;
     _ports_server := _ports_server s; _addon_slug := _addon_slug s;
     _options := _options s; _username := _username s;
     _password := _password s; _addons := _addons s |}.

Definition with_snapshot_inner_lock (v : bool) (s : SimulatedSupervisor) :=
  {| _auth_token := _auth_token s; _snapshots := _snapshots s;
     _snapshot_data := _snapshot_data s; _snapshot_lock := _snapshot_lock s;
     _snapshot_inner_lock := v; _entities := _entities s;
     _events := _events s; _attributes := _attributes s;
     _notification := _notification s;
     _min_snapshot_size := _min_snapshot_size s;
     _max_snapshot_size := _max_snapshot_size s;
     _ports_server := _ports_server s; _addon_slug := _addon_slug s;
     _options := _options s; _username := _username s;
     _password := _password s; _addons := _addons s |}.

Definition with_entities (v : dict (option string) Json) (s : SimulatedSupervisor) :=
  {| _auth_token := _auth_token s; _snapshots := _snapshots s;
     _snapshot_data := _snapshot_data s; _snapshot_lock := _snapshot_lock s;
     _snapshot_inner_lock := _snapshot_inner_lock s; _entities := v;
     _events := _events s; _attributes := _attributes s;
     _notification := _notification s;
     _min_snapshot_size := _min_snapshot_size s;
     _max_snapshot_size := _max_snapshot_size s;
     _ports_server := _ports_server s; _addon_slug := _addon_slug s;
     _options := _options s; _username := _username s;
     _password := _password s; _addons := _addons s |}.

Definition with_events (v : list (option string * Json)) (s : SimulatedSupervisor) :=
  {| _auth_token := _auth_token s; _snapshots := _snapshots s;
     _snapshot_data := _snapshot_data s; _snapshot_lock := _snapshot_lock s;
     _snapshot_inner_lock := _snapshot_inner_lock s; _entities := _entities s;
     _events := v; _attributes := _attributes s;
     _notification := _notification s;
     _min_snapshot_size := _min_snapshot_size s;
     _max_snapshot_size := _max_snapshot_size s;
     _ports_server := _ports_server s; _addon_slug := _addon_slug s;
     _options := _options s; _username := _username s;
     _password := _password s; _addons := _addons s |}.

Definition with_attributes (v : dict (option string) Json) (s : SimulatedSupervisor) :=
  {| _auth_token := _auth_token s; _snapshots := _snapshots s;
     _snapshot_data := _snapshot_data s; _snapshot_lock := _snapshot_lock s;
     _snapshot_inner_lock := _snapshot_inner_lock s; _entities := _entities s;
     _events := _events s; _attributes := v;
     _notification := _notification s;
     _min_snapshot_size := _min_snapshot_size s;
     _max_snapshot_size := _max_snapshot_size s;
     _ports_server := _ports_server s; _addon_slug := _addon_slug s;
     _options := _options s; _username := _username s;
     _password := _password s; _addons := _addons s |}.

Definition with_notification (v : option Json) (s : SimulatedSupervisor) :=
  {| _auth_token := _auth_token s; _snapshots := _snapshots s;
     _snapshot_data := _snapshot_data s; _snapshot_lock := _snapshot_lock s;
     _snapshot_inner_lock := _snapshot_inner_lock s; _entities := _entities s;
     _events := _events s; _attributes := _attributes s;
     _notification := v;
     _min_snapshot_size := _min_snapshot_size s;
     _max_snapshot_size := _max_snapshot_size s;
     _ports_server := _ports_server s; _addon_slug := _addon_slug s;
     _options := _options s; _username := _username s;
     _password := _password s; _addons := _addons s |}.

Definition with_options (v : Json) (s : SimulatedSupervisor) :=
  {| _auth_token := _auth_token s; _snapshots := _snapshots s;
     _snapshot_data := _snapshot_data s; _snapshot_lock := _snapshot_lock s;
     _snapshot_inner_lock := _snapshot_inner_lock s; _entities := _entities s;
     _events := _events s; _attributes := _attributes s;
     _notification := _notification s;
     _min_snapshot_size := _min_snapshot_size s;
     _max_snapshot_size := _max_snapshot_size s;
     _ports_server := _ports_server s; _addon_slug := _addon_slug s;
     _options := v; _username := _username s;
     _password := _password s; _addons := _addons s |}.

Definition with_addons (v : list Addon) (s : SimulatedSupervisor) :=
  {| _auth_token := _auth_token s; _snapshots := _snapshots s;
     _snapshot_data := _snapshot_data s; _snapshot_lock := _snapshot_lock s;
     _snapshot_inner_lock := _snapshot_inner_lock s; _entities := _entities s;
     _events := _events s; _attributes := _attributes s;
     _notification := _notification s;
     _min_snapshot_size := _min_snapshot_size s;
     _max_snapshot_size := _max_snapshot_size s;
     _ports_server := _ports_server s; _addon_slug := _addon_slug s;
     _options := _options s; _username := _username s;
     _password := _password s; _addons := v |}.

(** ** Requests, responses, exceptions *)

Inductive HTTPException := HTTPBadRequest | HTTPNotFound | HTTPUnauthorized.

(** What a handler can raise: one of aiohttp's HTTP exceptions, or any other
    Python exception ([KeyError], [AttributeError], ...), named by its class. *)
Inductive Exn :=
| Http (e : HTTPException)
| PyError (cls : string).

Inductive Result (A : Type) :=
| Ok (a : A)
| Error (e : Exn).
Arguments Ok {A} a.
Arguments Error {A} e.

Record Request := {
  (** [request.headers.get(name, None)] *)
  headers : string -> option string;
  (** [request.match_info] *)
  match_info : dict string string;
  (** [await request.json()]; [None] when the body is not JSON *)
  json : option Json;
  (** [await request.multipart()]: the parts of the body, each one the list
      of chunks [read_chunk] delivers; [None] when the body is not multipart *)
  multipart : option (list (list bytes))
}.

Inductive Response :=
| json_response (body : Json)
| TextResponse (body : string)
| EmptyResponse
| BytesResponse (body : bytes).

(** The clock and the random generator, as one request sees them. *)
Definition Rng := nat -> nat.

Record Ambient := {
  (** [self._time.now()] *)
  time_now : string;
  (** the draw behind [random.uniform] *)
  random_draw : Z;
  (** the draws behind [generateId] *)
  random_ids : Rng
}.

(** ** The handler monad: state, exceptions, suspension, and a trace *)

Inductive Lock := snapshot_lock | snapshot_inner_lock.

Inductive Event :=
| Acquire (l : Lock)
| Release (l : Lock)
| VerifyHeader (ok : bool)
| SetSnapshot (k : string)
| SetSnapshotData (k : string)
| DelSnapshot (k : string)
| DelSnapshotData (k : string).

(** A coroutine returns, raises, or is suspended waiting for a lock. *)
Inductive Outcome (A : Type) :=
| Return (a : A)
| Raise (e : Exn)
| Suspend.
Arguments Return {A} a.
Arguments Raise {A} e.
Arguments Suspend {A}.

Definition M (A : Type) : Type :=
  SimulatedSupervisor -> Outcome A * SimulatedSupervisor * list Event.

Definition ret {A} (a : A) : M A := fun self => (Return a, self, []).

Definition raise {A} (e : Exn) : M A := fun self => (Raise e, self, []).

Definition bind {A B} (m : M A) (f : A -> M B) : M B := fun self =>
  match m self with
  | (Return a, s1, t1) =>
      match f a s1 with (o, s2, t2) => (o, s2, t1 ++ t2) end
  | (Raise e, s1, t1) => (Raise e, s1, t1)
  | (Suspend, s1, t1) => (Suspend, s1, t1)
  end.

Notation "x <- m ;; k" := (bind m (fun x => k))
  (at level 61, m at next level, right associativity).
Notation "m ;; k" := (bind m (fun _ => k))
  (at level 61, right associativity).

Definition gets {A} (f : SimulatedSupervisor -> A) : M A :=
  fun self => (Return (f self), self, []).

Definition modify (f : SimulatedSupervisor -> SimulatedSupervisor) : M unit :=
  fun self => (Return tt, f self, []).

Definition emit (e : Event) : M unit := fun self => (Return tt, self, [e]).

Definition lift {A} (r : Result A) : M A :=
  match r with Ok a => ret a | Error e => raise e end.

(** [try: m  finally: cleanup] *)
Definition finally {A} (m : M A) (cleanup : M unit) : M A := fun self =>
  match m self with
  | (Suspend, s1, t1) => (Suspend, s1, t1)
  | (o, s1, t1) =>
      match cleanup s1 with
      | (Return _, s2, t2) => (o, s2, t1 ++ t2)
      | (Raise e, s2, t2) => (Raise e, s2, t1 ++ t2)
      | (Suspend, s2, t2) => (Suspend, s2, t1 ++ t2)
      end
  end.

(** [try: m  except Exception: handler] *)
Definition try_except {A} (m : M A) (handler : Exn -> M A) : M A := fun self =>
  match m self with
  | (Raise e, s1, t1) =>
      match handler e s1 with (o, s2, t2) => (o, s2, t1 ++ t2) end
  | r => r
  end.

(** *** [asyncio.Lock] *)

Definition locked (l : Lock) (self : SimulatedSupervisor) : bool :=
  match l with
  | snapshot_lock => _snapshot_lock self
  | snapshot_inner_lock => _snapshot_inner_lock self
  end.

Definition set_locked (l : Lock) (v : bool) : SimulatedSupervisor -> SimulatedSupervisor :=
  match l with
  | snapshot_lock => with_snapshot_lock v
  | snapshot_inner_lock => with_snapshot_inner_lock v
  end.

(** [await lock.acquire()]: taken at once when the lock is free, otherwise
    the coroutine waits. *)
Definition acquire (l : Lock) : M unit := fun self =>
  if locked l self then (Suspend, self, [])
  else (Return tt, set_locked l true self, [Acquire l]).

(** [lock.release()]: a [RuntimeError] when the lock is not held. *)
Definition release (l : Lock) : M unit := fun self =>
  if locked l self then (Return tt, set_locked l false self, [Release l])
  else (Raise (PyError "RuntimeError"), self, []).

(** [async with lock: body] *)
Definition async_with {A} (l : Lock) (body : M A) : M A :=
  acquire l ;; finally body (release l).

(** ** What the class imports

    [tests.helpers] and the base class [BaseServer] are used through these
    signatures only. *)

Class Helpers := {
  all_addons : list Addon;
  (** [createSnapshotTar(slug, name, date, padSize, included_folders,
      included_addons, password)] *)
  createSnapshotTar :
    string -> Json -> string -> Z -> Json -> Json -> Json -> Result bytes;
  parseSnapshotInfo : bytes -> Result SnapshotInfo
}.

Class BaseServer := {
  generateId : Rng -> nat -> string;
  serve_bytes : Request -> bytes -> Response
}.

(** ** Python values *)

(** [j.get(key, default)] on the value [request.json()] returned. *)
Definition json_get (j : Json) (key : string) (default : Json) : Result Json :=
  match j with
  | JDict d =>
      Ok (match PyDict.get key d with Some v => v | None => default end)
  | _ => Error (PyError "AttributeError")
  end.

(** [j[key]] *)
Definition json_item (j : Json) (key : string) : Result Json :=
  match j with
  | JDict d =>
      match PyDict.get key d with
      | Some v => Ok v
      | None => Error (PyError "KeyError")
      end
  | _ => Error (PyError "TypeError")
  end.

(** [j.copy()] *)
Definition json_copy (j : Json) : Result Json :=
  match j with
  | JDict _ | JList _ => Ok j
  | _ => Error (PyError "AttributeError")
  end.

(** [j == s] for a JSON value and a string or [None]. *)
Definition json_eq_str (j : Json) (s : option string) : bool :=
  match j, s with
  | JStr a, Some b => String.eqb a b
  | JNull, None => true
  | _, _ => false
  end.

(** [addon.get(key, default)] *)
Definition addon_get (addon : Addon) (key : string) (default : Json) : Json :=
  match PyDict.get key addon with Some v => v | None => default end.

(** [int(random.uniform(a, b))]: the integer part of a number between the
    two bounds, whichever draw picks it. *)
Definition int_random_uniform (draw a b : Z) : Z :=
  Z.min a b + draw mod (Z.max a b - Z.min a b + 1).

Definition info_json (i : SnapshotInfo) : Json :=
  JDict [("slug", JStr (slug i)); ("name", JStr (name i));
         ("date", JStr (date i)); ("size", JNum (size i));
         ("folders", JList (map JStr (folders i)));
         ("addons", JList (map JStr (addons i)));
         ("protected", JBool (protected i));
         ("type", JStr match type i with Full => "full" | Partial => "partial" end)].

(** ** The class [SimulatedSupervisor] *)

Section SimulatedSupervisor.
Context `{Helpers} `{BaseServer}.

Definition defaultOptions : Json :=
  JDict [("max_snapshots_in_hassio", JNum 4);
         ("max_snapshots_in_google_drive", JNum 4);
         ("days_between_snapshots", JNum 3);
         ("use_ssl", JBool false)].

Definition installAddon (slug name version : string) (boot started : bool)
    (l : list Addon) : list Addon :=
  l ++ [[("name", JStr (String.append "Name for " name));
         ("slug", JStr slug);
         ("description", JStr (String.append slug " description"));
         ("version", JStr version);
         ("watchdog", JBool false);
         ("boot", JStr (if boot then "auto" else "manual"));
         ("ingress_entry", JStr (String.append "/api/hassio_ingress/" slug));
         ("state", JStr (if started then "started" else "stopped"))]].

(** [__init__] *)
Definition init (ports_server : Z) : SimulatedSupervisor :=
  {| _auth_token := "test_header";
     _snapshots := [];
     _snapshot_data := [];
     _snapshot_lock := false;
     _snapshot_inner_lock := false;
     _entities := [];
     _events := [];
     _attributes := [];
     _notification := None;
     _min_snapshot_size := 1024 * 1024 * 3;
     _max_snapshot_size := 1024 * 1024 * 5;
     _ports_server := ports_server;
     _addon_slug := "self_slug";
     _options := defaultOptions;
     _username := "user";
     _password := "pass";
     _addons :=
       installAddon "sgadg" "sdgsagsdgsggsd" "v1.0" true true
         (installAddon "42" "The answer" "v1.0" true true
            (installAddon "self_slug" "Home Assistant Google drive Backup"
               "v1.0" true true all_addons)) |}.

(** The accessors the tests read the recorded state with. *)
Definition getEvents (self : SimulatedSupervisor) : list (option string * Json) :=
  _events self.

Definition getEntity (entity : option string) (self : SimulatedSupervisor) : option Json :=
  PyDict.get entity (_entities self).

Definition clearEntities (self : SimulatedSupervisor) : SimulatedSupervisor :=
  with_entities [] self.

Definition getAttributes (attribute : option string) (self : SimulatedSupervisor) : option Json :=
  PyDict.get attribute (_attributes self).

Definition getNotification (self : SimulatedSupervisor) : option Json :=
  _notification self.

Definition _formatErrorResponse (error : string) : Response :=
  json_response (JDict [("result", JStr error)]).

Definition _formatDataResponse (data : Json) : Response :=
  json_response (JDict [("result", JStr "ok"); ("data", data)]).

Definition toggleBlockSnapshot : M unit :=
  is_locked <- gets (locked snapshot_lock) ;;
  if is_locked then release snapshot_lock else acquire snapshot_lock.

(** Whether the request carries one of the two credentials. *)
Definition authorized (request : Request) (self : SimulatedSupervisor) : bool :=
  eqb (headers request "X-Supervisor-Token") (Some (_auth_token self))
  || eqb (headers request "Authorization")
         (Some (String.append "Bearer " (_auth_token self))).

Definition _verifyHeader (request : Request) : M unit :=
  token <- gets _auth_token ;;
  if eqb (headers request "X-Supervisor-Token") (Some token) then
    emit (VerifyHeader true)
  else if eqb (headers request "Authorization")
              (Some (String.append "Bearer " token)) then
    emit (VerifyHeader true)
  else
    emit (VerifyHeader false) ;; raise (Http HTTPUnauthorized).

(** [await request.json()] *)
Definition request_json (request : Request) : M Json :=
  match json request with
  | Some j => ret j
  | None => raise (PyError "JSONDecodeError")
  end.

Definition _getSnapshots (request : Request) : M Response :=
  _verifyHeader request ;;
  snapshots <- gets _snapshots ;;
  ret (_formatDataResponse
         (JDict [("snapshots", JList (map info_json (PyDict.values snapshots)))])).

(** The loop shared by [_stopAddon] and [_startAddon]: the first add-on with
    this slug that is in state [from] moves to state [to]. *)
Fixpoint switch_addon (slug : option string) (from to : string)
    (l : list Addon) : option (list Addon) :=
  match l with
  | [] => None
  | addon :: rest =>
      if json_eq_str (addon_get addon "slug" (JStr EmptyString)) slug
         && json_eq_str (addon_get addon "state" JNull) (Some from)
      then Some (PyDict.set "state" (JStr to) addon :: rest)
      else option_map (cons addon) (switch_addon slug from to rest)
  end.

Definition _stopAddon (request : Request) : M Response :=
  _verifyHeader request ;;
  let slug := PyDict.get "slug" (match_info request) in
  l <- gets _addons ;;
  match switch_addon slug "started" "stopped" l with
  | Some l' => modify (with_addons l') ;; ret (_formatDataResponse (JDict []))
  | None => raise (Http HTTPBadRequest)
  end.

Definition _startAddon (request : Request) : M Response :=
  _verifyHeader request ;;
  let slug := PyDict.get "slug" (match_info request) in
  l <- gets _addons ;;
  match switch_addon slug "stopped" "started" l with
  | Some l' => modify (with_addons l') ;; ret (_formatDataResponse (JDict []))
  | None => raise (Http HTTPBadRequest)
  end.

Definition _addonInfo (request : Request) : M Response :=
  _verifyHeader request ;;
  let slug := PyDict.get "slug" (match_info request) in
  l <- gets _addons ;;
  match find (fun addon =>
                json_eq_str (addon_get addon "slug" (JStr EmptyString)) slug) l with
  | Some addon =>
      ret (_formatDataResponse
             (JDict [("boot", addon_get addon "boot" JNull);
                     ("watchdog", addon_get addon "watchdog" JNull);
                     ("state", addon_get addon "state" JNull)]))
  | None => raise (Http HTTPBadRequest)
  end.

Definition _supervisorInfo (request : Request) : M Response :=
  _verifyHeader request ;;
  l <- gets _addons ;;
  ret (_formatDataResponse (JDict [("addons", JList (map JDict l))])).

Definition _supervisorLogs (request : Request) : M Response :=
  _verifyHeader request ;;
  ret (TextResponse "Supervisor Log line 1
Supervisor Log Line 2").

Definition _coreLogs (request : Request) : M Response :=
  _verifyHeader request ;;
  ret (TextResponse "Core Log line 1
Core Log Line 2").

Definition _coreInfo (request : Request) : M Response :=
  _verifyHeader request ;;
  port <- gets _ports_server ;;
  ret (_formatDataResponse
         (JDict [("version", JStr "1.3.3.7");
                 ("last_version", JStr "1.3.3.8");
                 ("machine", JStr "VS Dev");
                 ("ip_address", JStr "127.0.0.1");
                 ("arch", JStr "x86");
                 ("image", JStr "image");
                 ("custom", JStr "false");
                 ("boot", JStr "true");
                 ("port", JNum port);
                 ("ssl", JStr "false");
                 ("watchdog", JStr "what is this");
                 ("wait_boot", JStr "so many arguments")])).

(** [self._snapshots[k] = v] and [self._snapshot_data[k] = v] *)
Definition set_snapshot (k : string) (v : SnapshotInfo) : M unit :=
  modify (fun self => with_snapshots (PyDict.set k v (_snapshots self)) self) ;;
  emit (SetSnapshot k).

Definition set_snapshot_data (k : string) (v : bytes) : M unit :=
  modify (fun self => with_snapshot_data (PyDict.set k v (_snapshot_data self)) self) ;;
  emit (SetSnapshotData k).

(** The block of [_newSnapshot] that runs under the two locks. *)
Definition _newSnapshot_locked (amb : Ambient) (request : Request)
    (input_json : Json) : M Response :=
  _verifyHeader request ;;
  let slug := generateId (random_ids amb) 8 in
  password <- lift (json_get input_json "password" JNull) ;;
  name <- lift (json_get input_json "name" (JStr "Default name")) ;;
  min_size <- gets _min_snapshot_size ;;
  max_size <- gets _max_snapshot_size ;;
  let padSize := int_random_uniform (random_draw amb) min_size max_size in
  included_folders <- lift (json_get input_json "folders" JNull) ;;
  included_addons <- lift (json_get input_json "addons" JNull) ;;
  data <- lift (createSnapshotTar slug name (time_now amb) padSize
                  included_folders included_addons password) ;;
  snapshot_info <- lift (parseSnapshotInfo data) ;;
  set_snapshot slug snapshot_info ;;
  set_snapshot_data slug data ;;
  ret (_formatDataResponse (JDict [("slug", JStr slug)])).

Definition _newSnapshot (amb : Ambient) (request : Request) : M Response :=
  is_locked <- gets (locked snapshot_lock) ;;
  if is_locked then raise (Http HTTPBadRequest) else
  input_json <- request_json request ;;
  async_with snapshot_lock
    (async_with snapshot_inner_lock
       (_newSnapshot_locked amb request input_json)).

(** The loop around [contents.read_chunk()]: it stops at the first empty
    chunk, which is also what the reader delivers at the end of the part. *)
Fixpoint read_chunks (chunks : list bytes) (received_bytes : bytes) : bytes :=
  match chunks with
  | [] => received_bytes
  | [] :: _ => received_bytes
  | chunk :: rest => read_chunks rest (received_bytes ++ chunk)
  end.

Definition _uploadSnapshot (request : Request) : M Response :=
  _verifyHeader request ;;
  try_except
    (reader <- match multipart request with
               | Some parts => ret parts
               | None => raise (PyError "AssertionError")
               end ;;
     contents <- match reader with
                 | part :: _ => ret part
                 | [] => raise (PyError "AttributeError")
                 end ;;
     let received_bytes := read_chunks contents [] in
     info <- lift (parseSnapshotInfo received_bytes) ;;
     set_snapshot (slug info) info ;;
     set_snapshot_data (slug info) received_bytes ;;
     ret (_formatDataResponse (JDict [("slug", JStr (slug info))])))
    (fun e => ret (_formatErrorResponse "Bad snapshot")).

(** [slug in d], for the value [match_info.get('slug')] returned. *)
Definition slug_in {V} (slug : option string) (d : dict string V) : bool :=
  match slug with
  | Some k => PyDict.mem k d
  | None => false
  end.

(** [del self._snapshots[slug]] and [del self._snapshot_data[slug]] *)
Definition del_snapshot (slug : option string) : M unit :=
  snapshots <- gets _snapshots ;;
  match slug with
  | Some k =>
      if PyDict.mem k snapshots then
        modify (with_snapshots (PyDict.del k snapshots)) ;; emit (DelSnapshot k)
      else raise (PyError "KeyError")
  | None => raise (PyError "KeyError")
  end.

Definition del_snapshot_data (slug : option string) : M unit :=
  snapshot_data <- gets _snapshot_data ;;
  match slug with
  | Some k =>
      if PyDict.mem k snapshot_data then
        modify (with_snapshot_data (PyDict.del k snapshot_data)) ;;
        emit (DelSnapshotData k)
      else raise (PyError "KeyError")
  | None => raise (PyError "KeyError")
  end.

Definition _deleteSnapshot (request : Request) : M Response :=
  _verifyHeader request ;;
  let slug := PyDict.get "slug" (match_info request) in
  snapshots <- gets _snapshots ;;
  if negb (slug_in slug snapshots) then raise (Http HTTPNotFound) else
  del_snapshot slug ;;
  del_snapshot_data slug ;;
  ret (_formatDataResponse (JStr "deleted")).

(** [d[slug]] *)
Definition slug_item {V} (slug : option string) (d : dict string V) : Result V :=
  match slug with
  | Some k =>
      match PyDict.get k d with
      | Some v => Ok v
      | None => Error (PyError "KeyError")
      end
  | None => Error (PyError "KeyError")
  end.

Definition _snapshotDetail (request : Request) : M Response :=
  _verifyHeader request ;;
  let slug := PyDict.get "slug" (match_info request) in
  snapshots <- gets _snapshots ;;
  if negb (slug_in slug snapshots) then raise (Http HTTPNotFound) else
  info <- lift (slug_item slug snapshots) ;;
  ret (_formatDataResponse (info_json info)).

Definition _snapshotDownload (request : Request) : M Response :=
  _verifyHeader request ;;
  let slug := PyDict.get "slug" (match_info request) in
  snapshot_data <- gets _snapshot_data ;;
  if negb (slug_in slug snapshot_data) then raise (Http HTTPNotFound) else
  data <- lift (slug_item slug snapshot_data) ;;
  ret (serve_bytes request data).

Definition _selfInfo (request : Request) : M Response :=
  _verifyHeader request ;;
  addon_slug <- gets _addon_slug ;;
  options <- gets _options ;;
  ret (_formatDataResponse
         (JDict [("webui", JStr "http://some/address");
                 ("ingress_url", JStr "fill me in later");
                 ("slug", JStr addon_slug);
                 ("options", options)])).

Definition _miscInfo (request : Request) : M Response :=
  _verifyHeader request ;;
  ret (_formatDataResponse
         (JDict [("supervisor", JStr "super version");
                 ("homeassistant", JStr "ha version");
                 ("hassos", JStr "hassos version");
                 ("hostname", JStr "hostname");
                 ("machine", JStr "machine");
                 ("arch", JStr "Arch");
                 ("supported_arch", JStr "supported arch");
                 ("channel", JStr "channel")])).

Definition _authenticate (request : Request) : M Response :=
  _verifyHeader request ;;
  input_json <- request_json request ;;
  username <- gets _username ;;
  password <- gets _password ;;
  given_username <- lift (json_get input_json "username" JNull) ;;
  if negb (json_eq_str given_username (Some username)) then
    raise (Http HTTPBadRequest)
  else
    given_password <- lift (json_get input_json "password" JNull) ;;
    if negb (json_eq_str given_password (Some password)) then
      raise (Http HTTPBadRequest)
    else ret (_formatDataResponse (JDict [])).

(** [self.addon(slug)]: the position of the first add-on whose ["slug"] entry
    equals [slug], [None] when the loop ends without one. *)
Fixpoint addon (slug : option string) (l : list Addon) : Result (option nat) :=
  match l with
  | [] => Ok None
  | a :: rest =>
      match PyDict.get "slug" a with
      | None => Error (PyError "KeyError")
      | Some v =>
          if json_eq_str v slug then Ok (Some 0%nat)
          else match addon slug rest with
               | Ok (Some i) => Ok (Some (S i))
               | r => r
               end
      end
  end.

(** [d.update(j)] on an add-on record.  The entries are assigned one by one,
    so those before an offending item stay.  An item is read as a sequence
    of two elements, key and value: a two-element list, a two-character
    string, or an object with two keys (its keys are the sequence); a
    sequence of another length is a [ValueError], a scalar a [TypeError].
    The add-on records are keyed by strings: a key that is not a string is
    reported as [TypeError] here, where Python takes any hashable key. *)
Fixpoint update_items (items : list Json) (d : Addon) : Addon * option Exn :=
  match items with
  | [] => (d, None)
  | JList [JStr k; v] :: rest => update_items rest (PyDict.set k v d)
  | JList [_; _] :: _ => (d, Some (PyError "TypeError"))
  | JList _ :: _ => (d, Some (PyError "ValueError"))
  | JStr (String a (String b EmptyString)) :: rest =>
      update_items rest
        (PyDict.set (String a EmptyString) (JStr (String b EmptyString)) d)
  | JStr _ :: _ => (d, Some (PyError "ValueError"))
  | JDict [(k, _); (k', _)] :: rest =>
      update_items rest (PyDict.set k (JStr k') d)
  | JDict _ :: _ => (d, Some (PyError "ValueError"))
  | _ :: _ => (d, Some (PyError "TypeError"))
  end.

(** A JSON object is merged entry by entry, an array item by item; iterating
    a string yields its characters, none of which is a pair. *)
Definition dict_update (j : Json) (d : Addon) : Addon * option Exn :=
  match j with
  | JDict kv => (fold_left (fun acc kv => PyDict.set (fst kv) (snd kv) acc) kv d, None)
  | JList items => update_items items d
  | JStr EmptyString => (d, None)
  | JStr _ => (d, Some (PyError "ValueError"))
  | _ => (d, Some (PyError "TypeError"))
  end.

Fixpoint replace_nth {A} (i : nat) (x : A) (l : list A) : list A :=
  match l, i with
  | [], _ => []
  | _ :: rest, O => x :: rest
  | y :: rest, S i' => y :: replace_nth i' x rest
  end.

Definition _updateOptions (request : Request) : M Response :=
  let slug := PyDict.get "slug" (match_info request) in
  (if eqb slug (Some "self") then
     _verifyHeader request ;;
     j <- request_json request ;;
     options <- lift (json_item j "options") ;;
     options' <- lift (json_copy options) ;;
     modify (with_options options')
   else
     l <- gets _addons ;;
     found <- lift (addon slug l) ;;
     match found with
     | None => raise (PyError "AttributeError")
     | Some i =>
         j <- request_json request ;;
         match dict_update j (nth i l []) with
         | (a', err) =>
             modify (with_addons (replace_nth i a' l)) ;;
             match err with
             | Some e => raise e
             | None => ret tt
             end
         end
     end) ;;
  ret (_formatDataResponse (JDict [])).

Definition _haStateUpdate (request : Request) : M Response :=
  _verifyHeader request ;;
  let entity := PyDict.get "entity" (match_info request) in
  j <- request_json request ;;
  state <- lift (json_item j "state") ;;
  modify (fun self => with_entities (PyDict.set entity state (_entities self)) self) ;;
  attributes <- lift (json_item j "attributes") ;;
  modify (fun self => with_attributes (PyDict.set entity attributes (_attributes self)) self) ;;
  ret EmptyResponse.

Definition _haEventUpdate (request : Request) : M Response :=
  _verifyHeader request ;;
  let name := PyDict.get "name" (match_info request) in
  j <- request_json request ;;
  modify (fun self => with_events (_events self ++ [(name, j)]) self) ;;
  ret EmptyResponse.

Definition _createNotification (request : Request) : M Response :=
  _verifyHeader request ;;
  notification <- request_json request ;;
  notification' <- lift (json_copy notification) ;;
  modify (with_notification (Some notification')) ;;
  ret EmptyResponse.

Definition _dismissNotification (request : Request) : M Response :=
  _verifyHeader request ;;
  _ <- request_json request ;;
  modify (with_notification None) ;;
  ret EmptyResponse.

(** *** [routes] *)

Inductive Method := GET | POST.

Inductive Handler :=
| h_updateOptions | h_dismissNotification | h_createNotification
| h_haEventUpdate | h_haStateUpdate | h_authenticate | h_miscInfo
| h_selfInfo | h_addonInfo | h_snapshotDownload | h_snapshotDetail
| h_startAddon | h_stopAddon | h_deleteSnapshot | h_uploadSnapshot
| h_newSnapshot | h_coreInfo | h_supervisorInfo | h_supervisorLogs
| h_coreLogs | h_getSnapshots.

Definition routes : list (Method * string * Handler) :=
  [ (POST, "/addons/{slug}/options", h_updateOptions);
    (POST, "/core/api/services/persistent_notification/dismiss", h_dismissNotification);
    (POST, "/core/api/services/persistent_notification/create", h_createNotification);
    (POST, "/core/api/events/{name}", h_haEventUpdate);
    (POST, "/core/api/states/{entity}", h_haStateUpdate);
    (POST, "/auth", h_authenticate);
    (GET, "/auth", h_authenticate);
    (GET, "/info", h_miscInfo);
    (GET, "/addons/self/info", h_selfInfo);
    (GET, "/addons/{slug}/info", h_addonInfo);
    (GET, "/snapshots/{slug}/download", h_snapshotDownload);
    (GET, "/snapshots/{slug}/info", h_snapshotDetail);
    (POST, "/addons/{slug}/start", h_startAddon);
    (POST, "/addons/{slug}/stop", h_stopAddon);
    (POST, "/snapshots/{slug}/remove", h_deleteSnapshot);
    (POST, "/snapshots/new/upload", h_uploadSnapshot);
    (GET, "/snapshots/new/upload", h_uploadSnapshot);
    (POST, "/snapshots/new/partial", h_newSnapshot);
    (POST, "/snapshots/new/full", h_newSnapshot);
    (GET, "/snapshots/new/full", h_newSnapshot);
    (GET, "/core/info", h_coreInfo);
    (GET, "/supervisor/info", h_supervisorInfo);
    (GET, "/supervisor/logs", h_supervisorLogs);
    (GET, "/core/logs", h_coreLogs);
    (GET, "/snapshots", h_getSnapshots) ].

Definition handle (h : Handler) (amb : Ambient) (request : Request) : M Response :=
  match h with
  | h_updateOptions => _updateOptions request
  | h_dismissNotification => _dismissNotification request
  | h_createNotification => _createNotification request
  | h_haEventUpdate => _haEventUpdate request
  | h_haStateUpdate => _haStateUpdate request
  | h_authenticate => _authenticate request
  | h_miscInfo => _miscInfo request
  | h_selfInfo => _selfInfo request
  | h_addonInfo => _addonInfo request
  | h_snapshotDownload => _snapshotDownload request
  | h_snapshotDetail => _snapshotDetail request
  | h_startAddon => _startAddon request
  | h_stopAddon => _stopAddon request
  | h_deleteSnapshot => _deleteSnapshot request
  | h_uploadSnapshot => _uploadSnapshot request
  | h_newSnapshot => _newSnapshot amb request
  | h_coreInfo => _coreInfo request
  | h_supervisorInfo => _supervisorInfo request
  | h_supervisorLogs => _supervisorLogs request
  | h_coreLogs => _coreLogs request
  | h_getSnapshots => _getSnapshots request
  end.

(** *** Runs of the server

    The server object after a sequence of operations, each one a request
    handled to its end or a call of [toggleBlockSnapshot] by the test code.
    A handler gives control away only where it awaits the request body or a
    lock that is held; the two assignments to the store in [_newSnapshot]
    and [_uploadSnapshot] and the two deletions in [_deleteSnapshot] have no
    such point between them, so other requests see the store before or
    after a handler's writes, never in between. *)

Inductive Op :=
| Handle (h : Handler) (amb : Ambient) (request : Request)
| Toggle.

Definition exec (op : Op) (self : SimulatedSupervisor) : SimulatedSupervisor :=
  match op with
  | Handle h amb request => snd (fst (handle h amb request self))
  | Toggle => snd (fst (toggleBlockSnapshot self))
  end.

Definition run (ops : list Op) (self : SimulatedSupervisor) : SimulatedSupervisor :=
  fold_left (fun s op => exec op s) ops self.

End SimulatedSupervisor.

(** ** The imported parts, from the specification

    [tests/helpers.py] and [dev/base_server.py] are not among the sources
    read here; what the specification says of them is modelled below. *)

Module SpecModel.

(** Modelled from the spec: the framing the Archive Codec (the absent
    [createSnapshotTar] and [parseSnapshotInfo]) uses for one text field of
    its self-describing container.  The spec allows any custom binary layout;
    here a field is its bytes with [x00] and [x01] escaped, closed by
    [x00]. *)
Fixpoint stuff (l : bytes) : bytes :=
  match l with
  | [] => [x00]
  | b :: r =>
      if Byte.eqb b x00 then x01 :: x01 :: stuff r
      else if Byte.eqb b x01 then x01 :: x02 :: stuff r
      else b :: stuff r
  end.

Definition push (b : byte) (r : option (bytes * bytes)) : option (bytes * bytes) :=
  match r with
  | Some (field, rest) => Some (b :: field, rest)
  | None => None
  end.

(** Modelled from the spec: the inverse of [stuff] in the absent Archive
    Codec; it returns the field and the bytes after it, and rejects a field
    that is not closed or is wrongly escaped. *)
Fixpoint unstuff (l : bytes) : option (bytes * bytes) :=
  match l with
  | [] => None
  | b :: r =>
      if Byte.eqb b x00 then Some ([], r)
      else if Byte.eqb b x01 then
        match r with
        | c :: r' =>
            if Byte.eqb c x01 then push x00 (unstuff r')
            else if Byte.eqb c x02 then push x01 (unstuff r')
            else None
        | [] => None
        end
      else push b (unstuff r)
  end.

Definition put_text (s : string) : bytes := stuff (list_byte_of_string s).

Definition get_text (l : bytes) : option (string * bytes) :=
  match unstuff l with
  | Some (field, rest) => Some (string_of_list_byte field, rest)
  | None => None
  end.

(** Modelled from the spec: a manifest (the included folders or add-ons) in
    the absent Archive Codec's container: each identifier preceded by [x01],
    the list closed by [x00]. *)
Fixpoint put_manifest (l : list string) : bytes :=
  match l with
  | [] => [x00]
  | s :: r => x01 :: put_text s ++ put_manifest r
  end.

Fixpoint get_manifest (fuel : nat) (l : bytes) : option (list string * bytes) :=
  match fuel with
  | O => None
  | S fuel' =>
      match l with
      | [] => None
      | b :: r =>
          if Byte.eqb b x00 then Some ([], r)
          else if Byte.eqb b x01 then
            match get_text r with
            | Some (s, r') =>
                match get_manifest fuel' r' with
                | Some (items, rest) => Some (s :: items, rest)
                | None => None
                end
            | None => None
            end
          else None
      end
  end.

Definition magic : bytes := [x53; x4e; x41; x50].

Definition put_flag (b : bool) : byte := if b then x01 else x00.

Definition get_flag (b : byte) : option bool :=
  if Byte.eqb b x00 then Some false
  else if Byte.eqb b x01 then Some true
  else None.

(** Modelled from the spec: [Encode(id, name, timestamp, padSize,
    includedFolders, includedAddons, password)] of the absent Archive Codec:
    the fields serialized deterministically into a self-describing container,
    followed by [padSize] bytes of filler.  An omitted manifest is the empty
    one; the container is marked protected when a password is given; the
    archive is partial when a manifest names what it includes. *)
Definition Encode (id name timestamp : string) (padSize : Z)
    (includedFolders includedAddons : list string) (password : string) : bytes :=
  magic
  ++ [put_flag (negb (String.eqb password EmptyString));
      put_flag match includedFolders, includedAddons with
               | [], [] => false
               | _, _ => true
               end]
  ++ put_text id ++ put_text name ++ put_text timestamp
  ++ put_manifest includedFolders ++ put_manifest includedAddons
  ++ repeat x00 (Z.to_nat padSize).

(** Modelled from the spec: [Decode(bytes)] of the absent Archive Codec: the
    inverse of [Encode]; [None] is the spec's [CorruptArchive].  The record's
    size is the byte length of the whole archive. *)
Definition Decode (blob : bytes) : option SnapshotInfo :=
  match blob with
  | m0 :: m1 :: m2 :: m3 :: p :: t :: r0 =>
      if negb (Byte.eqb m0 x53 && Byte.eqb m1 x4e && Byte.eqb m2 x41 && Byte.eqb m3 x50)
      then None else
      match get_flag p, get_flag t with
      | Some is_protected, Some is_partial =>
          match get_text r0 with
          | Some (id, r1) =>
          match get_text r1 with
          | Some (name, r2) =>
          match get_text r2 with
          | Some (timestamp, r3) =>
          match get_manifest (S (List.length r3)) r3 with
          | Some (includedFolders, r4) =>
          match get_manifest (S (List.length r4)) r4 with
          | Some (includedAddons, _) =>
              Some {| slug := id; name := name; date := timestamp;
                      size := Z.of_nat (List.length blob);
                      folders := includedFolders; addons := includedAddons;
                      protected := is_protected;
                      type := if is_partial then Partial else Full |}
          | None => None
          end
          | None => None
          end
          | None => None
          end
          | None => None
          end
          | None => None
          end
      | _, _ => None
      end
  | _ => None
  end.


(** Modelled from the spec: the record the absent Archive Codec reads back
    from an archive, from what went into it. *)
Definition decoded (id name timestamp : string) (padSize : Z)
    (folders addons : list string) (password : string) : SnapshotInfo :=
  {| slug := id; name := name; date := timestamp;
     size := Z.of_nat (List.length
               (Encode id name timestamp padSize folders addons password));
     folders := folders; addons := addons;
     protected := negb (String.eqb password EmptyString);
     type := match folders, addons with
             | [], [] => Full
             | _, _ => Partial
             end |}.

(** The arguments [_newSnapshot] hands over are JSON values; the spec gives
    [Encode] a text name, a text password and lists of identifiers. *)
Definition as_text (j : Json) : Result string :=
  match j with
  | JStr s => Ok s
  | _ => Error (PyError "TypeError")
  end.

Definition as_password (j : Json) : Result string :=
  match j with
  | JNull => Ok EmptyString
  | JStr s => Ok s
  | _ => Error (PyError "TypeError")
  end.

Fixpoint as_texts (l : list Json) : Result (list string) :=
  match l with
  | [] => Ok []
  | JStr s :: r =>
      match as_texts r with
      | Ok r' => Ok (s :: r')
      | Error e => Error e
      end
  | _ :: _ => Error (PyError "TypeError")
  end.

Definition as_manifest (j : Json) : Result (list string) :=
  match j with
  | JNull => Ok []
  | JList l => as_texts l
  | _ => Error (PyError "TypeError")
  end.

(** Modelled from the spec: [createSnapshotTar] of the absent
    [tests/helpers.py], the spec's [Encode] behind the call made by
    [_newSnapshot].  A value outside [Encode]'s signature is refused with a
    [TypeError]. *)
Definition createSnapshotTar (slug : string) (name : Json) (date : string)
    (padSize : Z) (included_folders included_addons password : Json) : Result bytes :=
  match as_text name, as_manifest included_folders,
        as_manifest included_addons, as_password password with
  | Ok n, Ok f, Ok a, Ok p => Ok (Encode slug n date padSize f a p)
  | Error e, _, _, _ => Error e
  | _, Error e, _, _ => Error e
  | _, _, Error e, _ => Error e
  | _, _, _, Error e => Error e
  end.

(** Modelled from the spec: [parseSnapshotInfo] of the absent
    [tests/helpers.py], the spec's [Decode]; a corrupt archive raises. *)
Definition parseSnapshotInfo (data : bytes) : Result SnapshotInfo :=
  match Decode data with
  | Some info => Ok info
  | None => Error (PyError "CorruptArchive")
  end.

Definition alphabet : list ascii :=
  list_ascii_of_string
    "abcdefghijklmnopqrstuvwxyzABCDEFGHIJKLMNOPQRSTUVWXYZ0123456789".

(** Modelled from the spec: [generateId] of the absent base class
    [BaseServer]: a random alphanumeric identifier of the length asked
    for. *)
Definition generateId (rng : Rng) (length : nat) : string :=
  string_of_list_ascii
    (map (fun i => nth (rng i mod 62)%nat alphabet "a"%char) (seq 0 length)).

(** Modelled from the spec: [serve_bytes] of the absent base class
    [BaseServer]: the download endpoint answers with the raw archive
    bytes. *)
Definition serve_bytes (request : Request) (data : bytes) : Response :=
  BytesResponse data.

(** Modelled from the spec: [all_addons] of the absent [tests/helpers.py];
    the spec names no add-on of the catalog. *)
Definition all_addons : list Addon := [].

#[global] Instance helpers : Helpers :=
  Build_Helpers all_addons createSnapshotTar parseSnapshotInfo.

#[global] Instance base_server : BaseServer :=
  Build_BaseServer generateId serve_bytes.

End SpecModel.

(** ** The ways a request goes

    The outcomes of the three handlers that write to the store, case by
    case; the lemmas further down show that the handlers follow them. *)

Section Runs.
Context {HH : Helpers} {HB : BaseServer}.

(** The server object with a record and its bytes stored under [k]. *)
Definition stored (k : string) (info : SnapshotInfo) (data : bytes)
    (self : SimulatedSupervisor) : SimulatedSupervisor :=
  with_snapshot_data (PyDict.set k data (_snapshot_data self))
    (with_snapshots (PyDict.set k info (_snapshots self)) self).

(** The block of [_newSnapshot] under the two locks either fails the
    credential check, or fails later without having touched the server
    object, or stores the record and the bytes under the new identifier. *)
Inductive LockedRun (amb : Ambient) (request : Request) (j : Json)
    (self : SimulatedSupervisor) :
    Outcome Response * SimulatedSupervisor * list Event -> Prop :=
| locked_unauthorized :
    authorized request self = false ->
    LockedRun amb request j self
      (Raise (Http HTTPUnauthorized), self, [VerifyHeader false])
| locked_failed e :
    authorized request self = true ->
    LockedRun amb request j self (Raise e, self, [VerifyHeader true])
| locked_stored password name included_folders included_addons data info :
    authorized request self = true ->
    json_get j "password" JNull = Ok password ->
    json_get j "name" (JStr "Default name") = Ok name ->
    json_get j "folders" JNull = Ok included_folders ->
    json_get j "addons" JNull = Ok included_addons ->
    createSnapshotTar (generateId (random_ids amb) 8) name (time_now amb)
      (int_random_uniform (random_draw amb) (_min_snapshot_size self)
         (_max_snapshot_size self))
      included_folders included_addons password = Ok data ->
    parseSnapshotInfo data = Ok info ->
    LockedRun amb request j self
      (Return (_formatDataResponse
                 (JDict [("slug", JStr (generateId (random_ids amb) 8))])),
       stored (generateId (random_ids amb) 8) info data self,
       [VerifyHeader true; SetSnapshot (generateId (random_ids amb) 8);
        SetSnapshotData (generateId (random_ids amb) 8)]).

Definition under_locks (self : SimulatedSupervisor) : SimulatedSupervisor :=
  with_snapshot_inner_lock true (with_snapshot_lock true self).

Definition released (self : SimulatedSupervisor) : SimulatedSupervisor :=
  with_snapshot_lock false (with_snapshot_inner_lock false self).

(** The four ways a call of [_newSnapshot] goes. *)
Inductive NewSnapshotRun (amb : Ambient) (request : Request)
    (self : SimulatedSupervisor) :
    Outcome Response * SimulatedSupervisor * list Event -> Prop :=
| new_busy :
    _snapshot_lock self = true ->
    NewSnapshotRun amb request self (Raise (Http HTTPBadRequest), self, [])
| new_no_json :
    _snapshot_lock self = false ->
    json request = None ->
    NewSnapshotRun amb request self (Raise (PyError "JSONDecodeError"), self, [])
| new_waiting j :
    _snapshot_lock self = false ->
    json request = Some j ->
    _snapshot_inner_lock self = true ->
    NewSnapshotRun amb request self
      (Suspend, with_snapshot_lock true self, [Acquire snapshot_lock])
| new_entered j o s t :
    _snapshot_lock self = false ->
    json request = Some j ->
    _snapshot_inner_lock self = false ->
    _newSnapshot_locked amb request j (under_locks self) = (o, s, t) ->
    LockedRun amb request j (under_locks self) (o, s, t) ->
    NewSnapshotRun amb request self
      (o, released s,
       Acquire snapshot_lock :: Acquire snapshot_inner_lock :: t
       ++ [Release snapshot_inner_lock; Release snapshot_lock]).

Inductive UploadRun (request : Request) (self : SimulatedSupervisor) :
    Outcome Response * SimulatedSupervisor * list Event -> Prop :=
| upload_unauthorized :
    authorized request self = false ->
    UploadRun request self
      (Raise (Http HTTPUnauthorized), self, [VerifyHeader false])
| upload_bad :
    authorized request self = true ->
    (forall part parts info,
        multipart request = Some (part :: parts) ->
        parseSnapshotInfo (read_chunks part []) <> Ok info) ->
    UploadRun request self
      (Return (_formatErrorResponse "Bad snapshot"), self, [VerifyHeader true])
| upload_stored part parts info :
    authorized request self = true ->
    multipart request = Some (part :: parts) ->
    parseSnapshotInfo (read_chunks part []) = Ok info ->
    UploadRun request self
      (Return (_formatDataResponse (JDict [("slug", JStr (slug info))])),
       stored (slug info) info (read_chunks part []) self,
       [VerifyHeader true; SetSnapshot (slug info); SetSnapshotData (slug info)]).

Inductive DeleteRun (request : Request) (self : SimulatedSupervisor) :
    Outcome Response * SimulatedSupervisor * list Event -> Prop :=
| delete_unauthorized :
    authorized request self = false ->
    DeleteRun request self
      (Raise (Http HTTPUnauthorized), self, [VerifyHeader false])
| delete_not_found :
    authorized request self = true ->
    slug_in (PyDict.get "slug" (match_info request)) (_snapshots self) = false ->
    DeleteRun request self (Raise (Http HTTPNotFound), self, [VerifyHeader true])
| delete_done k :
    authorized request self = true ->
    PyDict.get "slug" (match_info request) = Some k ->
    PyDict.mem k (_snapshots self) = true ->
    PyDict.mem k (_snapshot_data self) = true ->
    DeleteRun request self
      (Return (_formatDataResponse (JStr "deleted")),
       with_snapshot_data (PyDict.del k (_snapshot_data self))
         (with_snapshots (PyDict.del k (_snapshots self)) self),
       [VerifyHeader true; DelSnapshot k; DelSnapshotData k])
| delete_orphan k :
    authorized request self = true ->
    PyDict.get "slug" (match_info request) = Some k ->
    PyDict.mem k (_snapshots self) = true ->
    PyDict.mem k (_snapshot_data self) = false ->
    DeleteRun request self
      (Raise (PyError "KeyError"),
       with_snapshots (PyDict.del k (_snapshots self)) self,
       [VerifyHeader true; DelSnapshot k]).

End Runs.

(** [stable R m]: the server object after [m] is related by [R] to the one
    before. *)
Definition stable (R : SimulatedSupervisor -> SimulatedSupervisor -> Prop)
    {A} (m : M A) : Prop :=
  forall self, R self (snd (fst (m self))).

(** The handlers that touch neither the snapshot store nor the locks. *)
Definition apart_from_snapshots (h : Handler) : bool :=
  match h with
  | h_newSnapshot | h_uploadSnapshot | h_deleteSnapshot => false
  | _ => true
  end.

Definition same_locks (s s' : SimulatedSupervisor) : Prop :=
  _snapshot_lock s' = _snapshot_lock s
  /\ _snapshot_inner_lock s' = _snapshot_inner_lock s.

Definition same_store (s s' : SimulatedSupervisor) : Prop :=
  _snapshots s' = _snapshots s /\ _snapshot_data s' = _snapshot_data s.

Definition same_snapshots (s s' : SimulatedSupervisor) : Prop :=
  same_locks s s' /\ same_store s s'.

(** Metadata and bytes go together: the two dictionaries have the same
    keys. *)
Definition paired (self : SimulatedSupervisor) : Prop :=
  PyDict.keys (_snapshots self) = PyDict.keys (_snapshot_data self).

(** The number of toggles in a sequence of operations. *)
Fixpoint toggles (ops : list Op) : nat :=
  match ops with
  | [] => 0
  | Toggle :: ops' => S (toggles ops')
  | Handle _ _ _ :: ops' => toggles ops'
  end.

(** Every record sits under the identifier it carries. *)
Definition keyed (self : SimulatedSupervisor) : Prop :=
  forall k info, PyDict.get k (_snapshots self) = Some info -> slug info = k.

(** What a request to [_haEventUpdate] adds to the recorded events: its
    name and body when it carries a credential and a JSON body, nothing
    otherwise. *)
Definition recorded_event (self : SimulatedSupervisor) (request : Request) :
    list (option string * Json) :=
  if authorized request self then
    match json request with
    | Some j => [(PyDict.get "name" (match_info request), j)]
    | None => []
    end
  else [].

(** The two server objects have the same configuration: credential, size
    bounds, user, port and own slug. *)
Definition same_config (s s' : SimulatedSupervisor) : Prop :=
  _auth_token s' = _auth_token s
  /\ _min_snapshot_size s' = _min_snapshot_size s
  /\ _max_snapshot_size s' = _max_snapshot_size s
  /\ _username s' = _username s
  /\ _password s' = _password s
  /\ _addon_slug s' = _addon_slug s
  /\ _ports_server s' = _ports_server s.

(** The handlers that only read the server object. *)
Definition read_only (h : Handler) : bool :=
  match h with
  | h_authenticate | h_miscInfo | h_selfInfo | h_addonInfo
  | h_snapshotDownload | h_snapshotDetail | h_coreInfo | h_supervisorInfo
  | h_supervisorLogs | h_coreLogs | h_getSnapshots => true
  | _ => false
  end.

(** The server object with its two locks set. *)
Definition with_locks (outer inner : bool) (self : SimulatedSupervisor) : SimulatedSupervisor :=
  with_snapshot_inner_lock inner (with_snapshot_lock outer self).

(** [lock_blind m]: [m] neither reads nor writes the two locks. *)
Definition lock_blind {A} (m : M A) : Prop :=
  forall outer inner self,
    m (with_locks outer inner self)
    = match m self with (o, s, t) => (o, with_locks outer inner s, t) end.

(** The value the last entry for [k] in a JSON object gives it. *)
Fixpoint last_binding (k : string) (kv : list (string * Json)) : option Json :=
  match kv with
  | [] => None
  | (k', v) :: rest =>
      match last_binding k rest with
      | Some v' => Some v'
      | None => if String.eqb k k' then Some v else None
      end
  end.

(** ** Sample requests *)

Definition no_headers (name : string) : option string := None.

Definition token_headers (name : string) : option string :=
  if String.eqb name "X-Supervisor-Token" then Some "test_header" else None.

Definition nightly : Json :=
  JDict [("name", JStr "nightly"); ("folders", JList [JStr "share"])].

Definition create_request (h : string -> option string) : Request :=
  {| headers := h; match_info := []; json := Some nightly; multipart := None |}.

Definition slug_request (h : string -> option string) (k : string) : Request :=
  {| headers := h; match_info := [("slug", k)]; json := None; multipart := None |}.

Definition upload_request (h : string -> option string) (chunks : list bytes) : Request :=
  {| headers := h; match_info := []; json := None; multipart := Some [chunks] |}.

Definition ambient (draw : Z) : Ambient :=
  {| time_now := "2020-01-01T00:00:00"; random_draw := draw;
     random_ids := fun i => i |}.

Definition is_store_event (e : Event) : bool :=
  match e with
  | SetSnapshot _ | SetSnapshotData _ => true
  | _ => false
  end.

Definition json_request (h : string -> option string)
    (info : dict string string) (j : Json) : Request :=
  {| headers := h; match_info := info; json := Some j; multipart := None |}.

Definition state_request : Request :=
  json_request token_headers [("entity", "sensor.door")]
    (JDict [("state", JStr "on");
            ("attributes", JDict [("friendly_name", JStr "Door")])]).

Definition state_only_request : Request :=
  json_request token_headers [("entity", "sensor.door")]
    (JDict [("state", JStr "on")]).

Definition notify_request : Request :=
  json_request token_headers [] (JDict [("message", JStr "hello")]).

Definition self_options_request : Request :=
  json_request token_headers [("slug", "self")]
    (JDict [("options", JDict [("use_ssl", JBool true)])]).

Definition addon_request (h : string -> option string) : Request :=
  json_request h [("slug", "42")] (JDict [("state", JStr "stopped")]).

Definition bearer_headers (name : string) : option string :=
  if String.eqb name "Authorization" then Some "Bearer test_header" else None.

Definition gate_held : SimulatedSupervisor := exec Toggle (init 8080).

Definition sample_blob : bytes :=
  SpecModel.Encode "abc12345" "uploaded" "2020-01-01T00:00:00" 4 [] []
    EmptyString.

Definition sample_info : SnapshotInfo :=
  {| slug := "abc12345"; name := "uploaded"; date := "2020-01-01T00:00:00";
     size := 50; folders := []; addons := []; protected := false;
     type := Full |}.

Definition other_blob : bytes :=
  SpecModel.Encode "abc12345" "replaced" "2021-01-01T00:00:00" 2 ["ssl"] []
    "secret".

Definition other_info : SnapshotInfo :=
  {| slug := "abc12345"; name := "replaced"; date := "2021-01-01T00:00:00";
     size := 53; folders := ["ssl"]; addons := []; protected := true;
     type := Partial |}.

(** The server after one upload of [sample_blob]. *)
Definition uploaded : SimulatedSupervisor :=
  exec (Handle h_uploadSnapshot (ambient 0)
          (upload_request token_headers [sample_blob]))
    (init 8080).

Definition taken_blob : bytes :=
  SpecModel.Encode "abcdefgh" "taken" "2019-01-01T00:00:00" 3 [] ["core_ssh"]
    EmptyString.

Definition taken_info : SnapshotInfo :=
  {| slug := "abcdefgh"; name := "taken"; date := "2019-01-01T00:00:00";
     size := 56; folders := []; addons := ["core_ssh"]; protected := false;
     type := Partial |}.

Definition third_blob : bytes :=
  SpecModel.Encode "zzz99999" "third" "2022-01-01T00:00:00" 1 [] []
    EmptyString.

Definition third_info : SnapshotInfo :=
  {| slug := "zzz99999"; name := "third"; date := "2022-01-01T00:00:00";
     size := 44; folders := []; addons := []; protected := false;
     type := Full |}.

(** Three uploads: [sample_blob], [taken_blob] and [third_blob], in this
    order, and the server after them. *)
Definition crowded_ops : list Op :=
  [Handle h_uploadSnapshot (ambient 0)
     (upload_request token_headers [sample_blob]);
   Handle h_uploadSnapshot (ambient 0)
     (upload_request token_headers [taken_blob]);
   Handle h_uploadSnapshot (ambient 0)
     (upload_request token_headers [third_blob])].

Definition crowded : SimulatedSupervisor := run crowded_ops (init 8080).

(** The upload of [sample_blob] in two chunks. *)
Definition split_upload : Request :=
  upload_request token_headers [firstn 10 sample_blob; skipn 10 sample_blob].

(** What a creation with a credential and the body [nightly] stores on the
    initial server, for a given draw of the pad size. *)
Definition created_blob (draw : Z) : bytes :=
  SpecModel.Encode "abcdefgh" "nightly" "2020-01-01T00:00:00"
    (int_random_uniform draw (1024 * 1024 * 3) (1024 * 1024 * 5))
    ["share"] [] EmptyString.

Definition created_info (draw : Z) : SnapshotInfo :=
  SpecModel.decoded "abcdefgh" "nightly" "2020-01-01T00:00:00"
    (int_random_uniform draw (1024 * 1024 * 3) (1024 * 1024 * 5))
    ["share"] [] EmptyString.

Definition created (draw : Z) : SimulatedSupervisor :=
  stored "abcdefgh" (created_info draw) (created_blob draw) (init 8080).

Definition created_trace : list Event :=
  [Acquire snapshot_lock; Acquire snapshot_inner_lock; VerifyHeader true;
   SetSnapshot "abcdefgh"; SetSnapshotData "abcdefgh";
   Release snapshot_inner_lock; Release snapshot_lock].

(** * Properties *)

(** ** Dictionaries *)

Section DictFacts.
Context {K V : Type} {EK : Eqb K}.
Implicit Types (k : K) (v : V) (d : dict K V).

Lemma eqb_refl k : eqb k k = true.
Proof. apply eqb_eq. reflexivity. Qed.

Lemma eqb_neq k k' : k <> k' -> eqb k k' = false.
Proof.
  intros Hne. destruct (eqb k k') eqn:E; [|reflexivity].
  apply eqb_eq in E. contradiction.
Qed.

Lemma get_set_same k v d : PyDict.get k (PyDict.set k v d) = Some v.
Proof.
  induction d as [|[k' v'] d IH]; simpl.
  - now rewrite eqb_refl.
  - destruct (eqb k k') eqn:E; simpl; rewrite E; auto.
Qed.

Lemma get_set_other k k' v d :
  k <> k' -> PyDict.get k' (PyDict.set k v d) = PyDict.get k' d.
Proof.
  intros Hne. induction d as [|[k0 v0] d IH]; simpl.
  - rewrite eqb_neq; auto.
  - destruct (eqb k k0) eqn:E; simpl.
    + apply eqb_eq in E. subst k0. rewrite eqb_neq; auto.
    + now rewrite IH.
Qed.

Lemma mem_keys k d : PyDict.mem k d = existsb (eqb k) (PyDict.keys d).
Proof.
  unfold PyDict.mem.
  induction d as [|[k' v'] d IH]; simpl; [reflexivity|].
  destruct (eqb k k'); simpl; auto.
Qed.

Lemma mem_In k d : PyDict.mem k d = true <-> In k (PyDict.keys d).
Proof.
  rewrite mem_keys, existsb_exists. split.
  - intros (x & Hin & E). apply eqb_eq in E. now subst.
  - intros Hin. exists k. split; [assumption | apply eqb_refl].
Qed.

Lemma keys_set k v d :
  PyDict.keys (PyDict.set k v d)
  = if PyDict.mem k d then PyDict.keys d else PyDict.keys d ++ [k].
Proof.
  unfold PyDict.mem.
  induction d as [|[k' v'] d IH]; simpl; [reflexivity|].
  destruct (eqb k k') eqn:E; simpl; [reflexivity|].
  rewrite IH. now destruct (PyDict.get k d).
Qed.

Lemma keys_del k d :
  PyDict.keys (PyDict.del k d)
  = filter (fun k' => negb (eqb k k')) (PyDict.keys d).
Proof.
  induction d as [|[k' v'] d IH]; simpl; [reflexivity|].
  destruct (eqb k k'); simpl; now rewrite IH.
Qed.

Lemma get_del_same k d : PyDict.get k (PyDict.del k d) = None.
Proof.
  induction d as [|[k' v'] d IH]; simpl; [reflexivity|].
  destruct (eqb k k') eqn:E; simpl; [assumption|]. now rewrite E.
Qed.

Lemma mem_del_same k d : PyDict.mem k (PyDict.del k d) = false.
Proof. unfold PyDict.mem. now rewrite get_del_same. Qed.

Lemma get_del_other k k' d :
  k <> k' -> PyDict.get k' (PyDict.del k d) = PyDict.get k' d.
Proof.
  intros Hne. induction d as [|[k0 v0] d IH]; simpl; [reflexivity|].
  destruct (eqb k k0) eqn:E; simpl.
  - apply eqb_eq in E. subst k0. rewrite (eqb_neq k' k); auto.
  - now rewrite IH.
Qed.

Lemma NoDup_keys_set k v d :
  NoDup (PyDict.keys d) -> NoDup (PyDict.keys (PyDict.set k v d)).
Proof.
  intros Hnd. rewrite keys_set. destruct (PyDict.mem k d) eqn:E; [assumption|].
  apply NoDup_app; [assumption | repeat constructor; simpl; tauto |].
  intros x Hin [<-|[]]. apply mem_In in Hin. congruence.
Qed.

Lemma NoDup_keys_del k d :
  NoDup (PyDict.keys d) -> NoDup (PyDict.keys (PyDict.del k d)).
Proof. intros Hnd. rewrite keys_del. now apply NoDup_filter. Qed.

End DictFacts.

(** Two dictionaries with the same keys, whatever they hold. *)
Lemma mem_same_keys {K V W : Type} {EK : Eqb K} (k : K)
    (d : dict K V) (d' : dict K W) :
  PyDict.keys d = PyDict.keys d' -> PyDict.mem k d = PyDict.mem k d'.
Proof. intros E. now rewrite !mem_keys, E. Qed.

(** ** The monad *)

Section SimulatedSupervisorFacts.
Context {HH : Helpers} {HB : BaseServer}.

Lemma verifyHeader_authorized request self :
  authorized request self = true ->
  _verifyHeader request self = (Return tt, self, [VerifyHeader true]).
Proof.
  unfold authorized, _verifyHeader, bind, gets, emit. simpl.
  destruct (option_eqb (headers request "X-Supervisor-Token") _); simpl;
    [reflexivity|].
  intros ->. reflexivity.
Qed.

Lemma verifyHeader_unauthorized request self :
  authorized request self = false ->
  _verifyHeader request self
  = (Raise (Http HTTPUnauthorized), self, [VerifyHeader false]).
Proof.
  unfold authorized, _verifyHeader, bind, gets, emit, raise. simpl.
  destruct (option_eqb (headers request "X-Supervisor-Token") _); simpl;
    [discriminate|].
  intros ->. reflexivity.
Qed.

Lemma bind_raise {A B} (m : M A) (f : A -> M B) self e s t :
  m self = (Raise e, s, t) -> bind m f self = (Raise e, s, t).
Proof. intros Hm. unfold bind. now rewrite Hm. Qed.

(** A handler that starts with the check stops there when it fails. *)
Lemma verify_then_unauthorized {A} request (k : M A) self :
  authorized request self = false ->
  (_verifyHeader request ;; k) self
  = (Raise (Http HTTPUnauthorized), self, [VerifyHeader false]).
Proof.
  intros Hu. unfold bind at 1. now rewrite verifyHeader_unauthorized.
Qed.

Lemma verify_then_authorized {A} request (k : M A) self :
  authorized request self = true ->
  (_verifyHeader request ;; k) self
  = match k self with (o, s, t) => (o, s, VerifyHeader true :: t) end.
Proof.
  intros Hu. unfold bind at 1. now rewrite verifyHeader_authorized.
Qed.

(** *** What [_newSnapshot] does under the locks

    The block either fails the credential check, or fails later without
    having touched the server object, or stores the record and the bytes
    under the new identifier. *)

Lemma newSnapshot_locked_run amb request j self :
  LockedRun amb request j self (_newSnapshot_locked amb request j self).
Proof.
  unfold _newSnapshot_locked.
  destruct (authorized request self) eqn:Ha.
  2:{ rewrite verify_then_unauthorized by assumption. now constructor. }
  rewrite verify_then_authorized by assumption.
  destruct j; try (apply locked_failed; assumption).
  unfold bind, lift, gets, ret, raise, json_get; simpl.
  destruct (createSnapshotTar _ _ _ _ _ _ _) as [data|e] eqn:Hc; simpl;
    [|apply locked_failed; assumption].
  destruct (parseSnapshotInfo data) as [info|e] eqn:Hp; simpl;
    [|apply locked_failed; assumption].
  eapply locked_stored; try reflexivity; eassumption.
Qed.

Lemma newSnapshot_locked_stores amb request j self
    password name included_folders included_addons data info :
  authorized request self = true ->
  json_get j "password" JNull = Ok password ->
  json_get j "name" (JStr "Default name") = Ok name ->
  json_get j "folders" JNull = Ok included_folders ->
  json_get j "addons" JNull = Ok included_addons ->
  createSnapshotTar (generateId (random_ids amb) 8) name (time_now amb)
    (int_random_uniform (random_draw amb) (_min_snapshot_size self)
       (_max_snapshot_size self))
    included_folders included_addons password = Ok data ->
  parseSnapshotInfo data = Ok info ->
  _newSnapshot_locked amb request j self
  = (Return (_formatDataResponse
               (JDict [("slug", JStr (generateId (random_ids amb) 8))])),
     stored (generateId (random_ids amb) 8) info data self,
     [VerifyHeader true; SetSnapshot (generateId (random_ids amb) 8);
      SetSnapshotData (generateId (random_ids amb) 8)]).
Proof.
  intros Ha Hpw Hn Hf Had Hc Hp.
  unfold _newSnapshot_locked.
  rewrite verify_then_authorized by assumption.
  unfold bind, gets. rewrite Hpw, Hn, Hf, Had. simpl.
  rewrite Hc. simpl. rewrite Hp. reflexivity.
Qed.

Lemma LockedRun_locks amb request j self o s t l :
  LockedRun amb request j self (o, s, t) ->
  o <> Suspend /\ locked l s = locked l self.
Proof.
  intros Hr. inversion Hr; subst; split; try discriminate; try reflexivity.
  all: try (destruct l; reflexivity).
Qed.

(** [async with] on a free lock, around a body that does not wait and leaves
    the lock alone. *)
Lemma async_with_free {A} l (body : M A) self o s t :
  locked l self = false ->
  body (set_locked l true self) = (o, s, t) ->
  o <> Suspend ->
  locked l s = true ->
  async_with l body self
  = (o, set_locked l false s, Acquire l :: t ++ [Release l]).
Proof.
  intros Hfree Hbody Hnw Hheld.
  unfold async_with, bind, acquire, finally, release.
  rewrite Hfree, Hbody, Hheld.
  destruct o; try contradiction; reflexivity.
Qed.

Lemma released_under_locks self :
  _snapshot_lock self = false -> _snapshot_inner_lock self = false ->
  released (under_locks self) = self.
Proof. destruct self; simpl; intros -> ->; reflexivity. Qed.

Lemma released_stored k info data self :
  _snapshot_lock self = false -> _snapshot_inner_lock self = false ->
  released (stored k info data (under_locks self)) = stored k info data self.
Proof. destruct self; simpl; intros -> ->; reflexivity. Qed.

Lemma newSnapshot_run amb request self :
  NewSnapshotRun amb request self (_newSnapshot amb request self).
Proof.
  unfold _newSnapshot. unfold bind at 1, gets at 1. simpl.
  destruct (_snapshot_lock self) eqn:Hout; [now constructor|].
  unfold bind at 1, request_json.
  destruct (json request) as [j|] eqn:Hj; [|now constructor].
  unfold ret at 1. simpl.
  destruct (_snapshot_inner_lock self) eqn:Hin.
  - unfold async_with at 1, bind, acquire at 1. simpl. rewrite Hout.
    unfold finally, async_with, bind, acquire. simpl. rewrite Hin.
    econstructor; eassumption.
  - pose proof (newSnapshot_locked_run amb request j (under_locks self)) as Hr.
    destruct (_newSnapshot_locked amb request j (under_locks self))
      as [[o s] t] eqn:Hb.
    pose proof (LockedRun_locks _ _ _ _ _ _ _ snapshot_lock Hr) as [Hnw Ho].
    pose proof (LockedRun_locks _ _ _ _ _ _ _ snapshot_inner_lock Hr) as [_ Hi].
    simpl in Ho, Hi.
    rewrite (async_with_free snapshot_lock _ self o
               (with_snapshot_inner_lock false s)
               (Acquire snapshot_inner_lock :: t ++ [Release snapshot_inner_lock])).
    + replace ((Acquire snapshot_inner_lock :: t ++ [Release snapshot_inner_lock])
               ++ [Release snapshot_lock])
        with (Acquire snapshot_inner_lock :: t
              ++ [Release snapshot_inner_lock; Release snapshot_lock])
        by (simpl; now rewrite <- app_assoc).
      now apply new_entered with (j := j).
    + exact Hout.
    + apply (async_with_free snapshot_inner_lock); auto.
    + assumption.
    + simpl. destruct s; simpl in *. assumption.
Qed.

End SimulatedSupervisorFacts.

(** ** What a handler leaves as it is

    [stable R m]: the server object after [m] is related by [R] to the one
    before, for a reflexive and transitive [R]. *)

Section Stable.
Context {HH : Helpers} {HB : BaseServer}.
Variable R : SimulatedSupervisor -> SimulatedSupervisor -> Prop.
Hypothesis R_refl : forall s, R s s.
Hypothesis R_trans : forall s1 s2 s3, R s1 s2 -> R s2 s3 -> R s1 s3.

Lemma stable_ret {A} (a : A) : stable R (ret a).
Proof. intro s. apply R_refl. Qed.

Lemma stable_raise {A} e : stable R (@raise A e).
Proof. intro s. apply R_refl. Qed.

Lemma stable_gets {A} (f : SimulatedSupervisor -> A) : stable R (gets f).
Proof. intro s. apply R_refl. Qed.

Lemma stable_emit e : stable R (emit e).
Proof. intro s. apply R_refl. Qed.

Lemma stable_lift {A} (r : Result A) : stable R (lift r).
Proof. intro s. destruct r; apply R_refl. Qed.

Lemma stable_modify f : (forall s, R s (f s)) -> stable R (modify f).
Proof. intros Hf s. apply Hf. Qed.

Lemma stable_bind {A B} (m : M A) (f : A -> M B) :
  stable R m -> (forall a, stable R (f a)) -> stable R (bind m f).
Proof.
  intros Hm Hf s. unfold bind. specialize (Hm s).
  destruct (m s) as [[[a|e|] s1] t1]; simpl in *; try assumption.
  specialize (Hf a s1). destruct (f a s1) as [[o s2] t2]; simpl in *.
  eapply R_trans; eassumption.
Qed.

Lemma stable_try_except {A} (m : M A) (handler : Exn -> M A) :
  stable R m -> (forall e, stable R (handler e)) -> stable R (try_except m handler).
Proof.
  intros Hm Hh s. unfold try_except. specialize (Hm s).
  destruct (m s) as [[[a|e|] s1] t1]; simpl in *; try assumption.
  specialize (Hh e s1). destruct (handler e s1) as [[o s2] t2]; simpl in *.
  eapply R_trans; eassumption.
Qed.

Lemma stable_finally {A} (m : M A) (cleanup : M unit) :
  stable R m -> stable R cleanup -> stable R (finally m cleanup).
Proof.
  intros Hm Hc s. unfold finally. specialize (Hm s).
  destruct (m s) as [[o s1] t1]; simpl in *.
  specialize (Hc s1).
  destruct o; try assumption;
    destruct (cleanup s1) as [[[u|e'|] s2] t2]; simpl in *;
    eapply R_trans; eassumption.
Qed.

Lemma stable_verifyHeader request : stable R (_verifyHeader request).
Proof.
  unfold _verifyHeader.
  apply stable_bind; [apply stable_gets | intro token].
  repeat match goal with
         | |- stable _ (if ?c then _ else _) => destruct c
         end;
    repeat first [ apply stable_emit | apply stable_raise
                 | apply stable_bind; [|intro] ].
Qed.

Lemma stable_request_json request : stable R (request_json request).
Proof.
  unfold request_json.
  destruct (json request); [apply stable_ret | apply stable_raise].
Qed.

End Stable.

(** One step of a proof that a handler is [stable]; [solve_modify] closes
    the goals left by assignments to the server object. *)
Ltac stable_step solve_modify :=
  lazymatch goal with
  | |- stable _ (bind _ _) => apply stable_bind; [assumption..| |intro]
  | |- stable _ (ret _) => apply stable_ret; assumption
  | |- stable _ (raise _) => apply stable_raise; assumption
  | |- stable _ (gets _) => apply stable_gets; assumption
  | |- stable _ (emit _) => apply stable_emit; assumption
  | |- stable _ (lift _) => apply stable_lift; assumption
  | |- stable _ (_verifyHeader _) => apply stable_verifyHeader; assumption
  | |- stable _ (request_json _) => apply stable_request_json; assumption
  | |- stable _ (modify _) => apply stable_modify; intro; solve_modify
  | |- stable _ (try_except _ _) =>
      apply stable_try_except; [assumption..| |intro]
  | |- stable _ (finally _ _) => apply stable_finally; [assumption..| |]
  | |- stable _ (match ?x with _ => _ end) => destruct x
  | |- stable _ (let _ := _ in _) => cbv zeta
  end.

Ltac stable_tac solve_modify := repeat stable_step solve_modify.

Ltac head_of t :=
  lazymatch t with
  | ?f _ => head_of f
  | _ => t
  end.

Ltac unfold_handler :=
  lazymatch goal with
  | |- stable _ ?m => let f := head_of m in unfold f
  end.

Lemma same_locks_refl s : same_locks s s.
Proof. split; reflexivity. Qed.

Lemma same_locks_trans s1 s2 s3 :
  same_locks s1 s2 -> same_locks s2 s3 -> same_locks s1 s3.
Proof. intros [? ?] [? ?]; split; congruence. Qed.

Lemma same_snapshots_refl s : same_snapshots s s.
Proof. repeat split; reflexivity. Qed.

Lemma same_snapshots_trans s1 s2 s3 :
  same_snapshots s1 s2 -> same_snapshots s2 s3 -> same_snapshots s1 s3.
Proof. intros [[? ?] [? ?]] [[? ?] [? ?]]; repeat split; congruence. Qed.

Section Frames.
Context {HH : Helpers} {HB : BaseServer}.

Lemma handle_same_snapshots h amb request :
  apart_from_snapshots h = true ->
  stable same_snapshots (handle h amb request).
Proof.
  pose proof same_snapshots_refl as Hr.
  pose proof same_snapshots_trans as Ht.
  destruct h; simpl; try discriminate; intros _;
    unfold_handler; stable_tac ltac:(repeat split; reflexivity).
Qed.

Lemma upload_same_locks request : stable same_locks (_uploadSnapshot request).
Proof.
  pose proof same_locks_refl as Hr.
  pose proof same_locks_trans as Ht.
  unfold _uploadSnapshot, set_snapshot, set_snapshot_data.
  stable_tac ltac:(split; reflexivity).
Qed.

Lemma delete_same_locks request : stable same_locks (_deleteSnapshot request).
Proof.
  pose proof same_locks_refl as Hr.
  pose proof same_locks_trans as Ht.
  unfold _deleteSnapshot, del_snapshot, del_snapshot_data.
  stable_tac ltac:(split; reflexivity).
Qed.

(** *** The ways a call of [_uploadSnapshot] and [_deleteSnapshot] goes *)

Lemma uploadSnapshot_run request self :
  UploadRun request self (_uploadSnapshot request self).
Proof.
  unfold _uploadSnapshot.
  destruct (authorized request self) eqn:Ha.
  2:{ rewrite verify_then_unauthorized by assumption. now constructor. }
  rewrite verify_then_authorized by assumption.
  unfold try_except, bind, ret, raise, lift.
  destruct (multipart request) as [[|part parts]|] eqn:Hm; simpl;
    try (apply upload_bad; [assumption | intros; congruence]).
  destruct (parseSnapshotInfo (read_chunks part [])) as [info|e] eqn:Hp; simpl.
  - eapply upload_stored; eassumption.
  - apply upload_bad; [assumption | intros; congruence].
Qed.

Lemma deleteSnapshot_run request self :
  DeleteRun request self (_deleteSnapshot request self).
Proof.
  unfold _deleteSnapshot.
  destruct (authorized request self) eqn:Ha.
  2:{ rewrite verify_then_unauthorized by assumption. now constructor. }
  rewrite verify_then_authorized by assumption.
  unfold bind at 1, gets at 1. simpl.
  destruct (slug_in _ (_snapshots self)) eqn:Hin; simpl.
  2:{ now apply delete_not_found. }
  destruct (PyDict.get "slug" (match_info request)) as [k|] eqn:Hk;
    simpl in Hin; [|discriminate].
  unfold del_snapshot, del_snapshot_data, bind, gets, modify, emit, ret, raise.
  simpl. rewrite Hin. simpl.
  destruct (PyDict.mem k (_snapshot_data self)) eqn:Hd; simpl.
  - now apply delete_done.
  - now apply delete_orphan.
Qed.

(** *** Metadata and bytes go together *)

Lemma paired_stored k info data self :
  paired self -> paired (stored k info data self).
Proof.
  unfold paired, stored. simpl. intros Hp.
  rewrite !keys_set, (mem_same_keys k _ _ Hp), Hp. reflexivity.
Qed.

Lemma paired_same_store s s' : same_store s s' -> paired s -> paired s'.
Proof. unfold paired. intros [-> ->]. auto. Qed.

Lemma newSnapshot_paired amb request self :
  paired self -> paired (snd (fst (_newSnapshot amb request self))).
Proof.
  intros Hp. destruct (newSnapshot_run amb request self); simpl; auto.
  match goal with H : LockedRun _ _ _ _ _ |- _ => inversion H; subst end;
    try exact Hp.
  apply (paired_stored _ _ _ (under_locks self)). exact Hp.
Qed.

Lemma uploadSnapshot_paired request self :
  paired self -> paired (snd (fst (_uploadSnapshot request self))).
Proof.
  intros Hp. destruct (uploadSnapshot_run request self); simpl; auto.
  now apply paired_stored.
Qed.

Lemma deleteSnapshot_paired request self :
  paired self -> paired (snd (fst (_deleteSnapshot request self))).
Proof.
  intros Hp. destruct (deleteSnapshot_run request self); simpl; auto.
  - unfold paired in *. simpl. now rewrite !keys_del, Hp.
  - rewrite (mem_same_keys k _ _ Hp) in *. congruence.
Qed.

Lemma toggle_state self :
  snd (fst (toggleBlockSnapshot self))
  = with_snapshot_lock (negb (_snapshot_lock self)) self.
Proof.
  unfold toggleBlockSnapshot, bind, gets, release, acquire. simpl.
  destruct (_snapshot_lock self) eqn:E; simpl; rewrite E; reflexivity.
Qed.

Lemma exec_paired op self : paired self -> paired (exec op self).
Proof.
  intros Hp. destruct op as [h amb request|]; simpl.
  - destruct (apart_from_snapshots h) eqn:Hh.
    + eapply paired_same_store; [|exact Hp].
      apply (handle_same_snapshots h amb request Hh self).
    + destruct h; try discriminate; simpl.
      * now apply deleteSnapshot_paired.
      * now apply uploadSnapshot_paired.
      * now apply newSnapshot_paired.
  - rewrite toggle_state. exact Hp.
Qed.

Lemma run_paired ops self : paired self -> paired (run ops self).
Proof.
  revert self. induction ops as [|op ops IH]; intros self Hp; simpl; auto.
  apply IH. now apply exec_paired.
Qed.

(** *** The locks along a run *)

Lemma handle_locks h amb request self :
  _snapshot_inner_lock self = false ->
  same_locks self (snd (fst (handle h amb request self))).
Proof.
  intros Hin. destruct (apart_from_snapshots h) eqn:Hh.
  - apply (handle_same_snapshots h amb request Hh self).
  - destruct h; try discriminate; simpl.
    + apply delete_same_locks.
    + apply upload_same_locks.
    + destruct (newSnapshot_run amb request self); simpl;
        try apply same_locks_refl; try congruence.
      match goal with H : LockedRun _ _ _ _ _ |- _ => inversion H; subst end;
        split; simpl; congruence.
Qed.

Lemma run_locks ops self :
  _snapshot_inner_lock self = false ->
  _snapshot_inner_lock (run ops self) = false
  /\ _snapshot_lock (run ops self)
     = xorb (_snapshot_lock self) (Nat.odd (toggles ops)).
Proof.
  revert self. induction ops as [|op ops IH]; intros self Hin; simpl.
  - split; [assumption | now rewrite xorb_false_r].
  - destruct op as [h amb request|].
    + destruct (handle_locks h amb request self Hin) as [Ho Hi].
      simpl. destruct (IH (snd (fst (handle h amb request self)))) as [IH1 IH2];
        [congruence|].
      split; [assumption | now rewrite IH2, Ho].
    + simpl. rewrite toggle_state.
      destruct (IH (with_snapshot_lock (negb (_snapshot_lock self)) self))
        as [IH1 IH2]; [assumption|].
      split; [assumption|]. rewrite IH2. simpl.
      rewrite Nat.odd_succ, <- Nat.negb_odd.
      destruct (_snapshot_lock self), (Nat.odd (toggles ops)); reflexivity.
Qed.

End Frames.

(** ** The codec of the specification *)

Module SpecModelFacts.
Import SpecModel.

Lemma unstuff_stuff l rest : unstuff (stuff l ++ rest) = Some (l, rest).
Proof.
  induction l as [|b l IH]; simpl; [reflexivity|].
  destruct (Byte.eqb b x00) eqn:E0.
  - apply Byte.byte_dec_bl in E0. subst b. simpl. now rewrite IH.
  - destruct (Byte.eqb b x01) eqn:E1.
    + apply Byte.byte_dec_bl in E1. subst b. simpl. now rewrite IH.
    + simpl. now rewrite E0, E1, IH.
Qed.

Lemma get_put_text s rest : get_text (put_text s ++ rest) = Some (s, rest).
Proof.
  unfold get_text, put_text.
  now rewrite unstuff_stuff, string_of_list_byte_of_string.
Qed.

Lemma get_put_manifest l : forall fuel rest,
  (List.length l < fuel)%nat ->
  get_manifest fuel (put_manifest l ++ rest) = Some (l, rest).
Proof.
  induction l as [|s l IH]; intros [|fuel] rest Hf; simpl in *; try lia.
  - reflexivity.
  - rewrite <- app_assoc, get_put_text, IH by lia. reflexivity.
Qed.


Lemma put_manifest_length l : (List.length l < List.length (put_manifest l))%nat.
Proof.
  induction l as [|s l IH]; simpl; [lia|].
  rewrite length_app. lia.
Qed.




(** [Decode] succeeds on what [Encode] produced and gives the fields back. *)
Lemma Decode_Encode id name timestamp padSize folders addons password :
  Decode (Encode id name timestamp padSize folders addons password)
  = Some (decoded id name timestamp padSize folders addons password).
Proof.
  set (blob := Encode id name timestamp padSize folders addons password).
  unfold Decode.
  assert (Hb : blob =
    x53 :: x4e :: x41 :: x50
    :: put_flag (negb (String.eqb password EmptyString))
    :: put_flag match folders, addons with [], [] => false | _, _ => true end
    :: put_text id ++ put_text name ++ put_text timestamp
       ++ put_manifest folders ++ put_manifest addons
       ++ repeat x00 (Z.to_nat padSize)) by reflexivity.
  rewrite Hb at 1. cbv beta iota. simpl negb at 1.
  replace (Byte.eqb x53 x53 && Byte.eqb x4e x4e && Byte.eqb x41 x41
           && Byte.eqb x50 x50) with true by reflexivity.
  cbv beta iota.
  assert (Hf : forall b, get_flag (put_flag b) = Some b) by (intros []; reflexivity).
  rewrite !Hf, !get_put_text.
  rewrite get_put_manifest.
  2:{ rewrite length_app. pose proof (put_manifest_length folders). lia. }
  rewrite get_put_manifest.
  2:{ rewrite length_app. pose proof (put_manifest_length addons). lia. }
  unfold decoded. f_equal. f_equal.
  now destruct folders, addons.
Qed.

End SpecModelFacts.

(** ** The gate *)

Section Gate.
Context {HH : Helpers} {HB : BaseServer}.

(** C1.  A creation request that finds the outer lock [_snapshot_lock] held
    is refused at once with [HTTPBadRequest], the client error that stands
    for Busy and differs from [HTTPUnauthorized]: the call raises instead of
    waiting, its trace is empty (no lock is touched, no credential is
    checked, nothing is stored) and the server object, hence both
    dictionaries of the store, is the one it was. *)
Theorem newSnapshot_busy amb request self :
  _snapshot_lock self = true ->
  _newSnapshot amb request self = (Raise (Http HTTPBadRequest), self, [])
  /\ Http HTTPBadRequest <> Http HTTPUnauthorized.
Proof.
  intros Hheld. split; [|discriminate].
  destruct (newSnapshot_run amb request self); congruence.
Qed.

(** C2.  [toggleBlockSnapshot] inverts the outer lock.  Along any run from
    the initial server object the outer lock is held exactly when the number
    of toggles so far is odd; then every creation attempt is refused with
    [HTTPBadRequest] (Busy), and when the number is even an attempt is let
    through the gate and takes both locks. *)
Theorem toggleBlockSnapshot_parity ports ops amb request :
  (forall self,
      _snapshot_lock (exec Toggle self) = negb (_snapshot_lock self))
  /\ _snapshot_lock (run ops (init ports)) = Nat.odd (toggles ops)
  /\ (Nat.odd (toggles ops) = true ->
      _newSnapshot amb request (run ops (init ports))
      = (Raise (Http HTTPBadRequest), run ops (init ports), []))
  /\ (Nat.odd (toggles ops) = false ->
      json request <> None ->
      exists o s t,
        _newSnapshot amb request (run ops (init ports))
        = (o, s, Acquire snapshot_lock :: Acquire snapshot_inner_lock :: t)).
Proof.
  destruct (run_locks ops (init ports) eq_refl) as [Hin Hout].
  simpl in Hout.
  split; [|split; [|split]].
  - intros self. simpl. now rewrite toggle_state.
  - exact Hout.
  - intros Hodd.
    destruct (newSnapshot_run amb request (run ops (init ports)));
      congruence.
  - intros Heven Hj.
    destruct (newSnapshot_run amb request (run ops (init ports))); try congruence.
    eauto.
Qed.

(** C3.  In every call of [_newSnapshot] the credential check comes after
    the outer and then the inner lock were taken and before anything is
    stored, and both locks are given back after it, whatever the outcome: a
    call that checks the credential has the trace outer lock, inner lock,
    check, stores, inner release, outer release; a failed check (the request
    is unauthorized) happens under both locks and stores nothing; and a call
    that ends, by returning or raising, either took no lock and left the
    server object alone or leaves both locks free. *)
Theorem newSnapshot_lock_order amb request self o s t :
  _newSnapshot amb request self = (o, s, t) ->
  (o <> Suspend /\ t = [] /\ s = self)
  \/ (o = Suspend /\ t = [Acquire snapshot_lock]
      /\ _snapshot_inner_lock self = true)
  \/ (exists body,
        t = Acquire snapshot_lock :: Acquire snapshot_inner_lock
            :: VerifyHeader (authorized request self)
            :: body ++ [Release snapshot_inner_lock; Release snapshot_lock]
        /\ forallb is_store_event body = true
        /\ (authorized request self = false ->
            o = Raise (Http HTTPUnauthorized) /\ body = [])
        /\ o <> Suspend
        /\ _snapshot_lock s = false /\ _snapshot_inner_lock s = false).
Proof.
  intros Hrun. pose proof (newSnapshot_run amb request self) as Hr.
  rewrite Hrun in Hr. inversion Hr; subst.
  - left. repeat split. discriminate.
  - left. repeat split. discriminate.
  - right. left. auto.
  - right. right.
    assert (Ha : authorized request (under_locks self) = authorized request self)
      by reflexivity.
    match goal with H : LockedRun _ _ _ _ _ |- _ => inversion H; subst end;
      rewrite Ha in *;
      match goal with H : authorized _ _ = _ |- _ => rewrite H end.
    + exists []. repeat split; try discriminate; reflexivity.
    + exists []. repeat split; try discriminate; reflexivity.
    + eexists [_; _].
      repeat split; try discriminate; reflexivity.
Qed.

(** C4.  After any sequence of operations on the initial server object
    (requests to any handler, creation, upload and removal among them, and
    toggles of the gate) the metadata dictionary [_snapshots] and the bytes
    dictionary [_snapshot_data] have the same keys in the same order: an
    identifier has a record if and only if it has a blob. *)
Theorem store_paired ports ops id :
  PyDict.keys (_snapshots (run ops (init ports)))
  = PyDict.keys (_snapshot_data (run ops (init ports)))
  /\ PyDict.mem id (_snapshots (run ops (init ports)))
     = PyDict.mem id (_snapshot_data (run ops (init ports))).
Proof.
  assert (Hp : paired (run ops (init ports))) by (apply run_paired; reflexivity).
  split; [exact Hp | now apply mem_same_keys].
Qed.

End Gate.

(** ** Credentials *)

Section Credentials.
Context {HH : Helpers} {HB : BaseServer}.

(** C5, as amended.  On every route except the options update of an add-on
    other than [self], a request carrying neither credential leaves the
    server object as it was (the inner lock being free, as it is between
    requests), and the handler raises [HTTPUnauthorized]; only
    [_newSnapshot] looks at the gate and reads the body first, so it raises
    [HTTPBadRequest] when the outer lock is held and the JSON error when the
    body is not JSON. *)
Theorem unauthorized_leaves_state method path h amb request self :
  In (method, path, h) routes ->
  authorized request self = false ->
  _snapshot_inner_lock self = false ->
  (h = h_updateOptions ->
   PyDict.get "slug" (match_info request) = Some "self") ->
  snd (fst (handle h amb request self)) = self
  /\ fst (fst (handle h amb request self))
     = match h, _snapshot_lock self, json request with
       | h_newSnapshot, true, _ => Raise (Http HTTPBadRequest)
       | h_newSnapshot, false, None => Raise (PyError "JSONDecodeError")
       | _, _, _ => Raise (Http HTTPUnauthorized)
       end.
Proof.
  intros _ Hu Hin Hself.
  destruct h; simpl;
    try (match goal with |- context [?f request self] =>
           let g := head_of f in unfold g end;
         rewrite verify_then_unauthorized by assumption;
         split; [reflexivity | now destruct (_snapshot_lock self), (json request)]).
  - unfold _updateOptions. rewrite (Hself eq_refl). simpl.
    rewrite (bind_raise _ _ _ _ _ _ (verify_then_unauthorized request _ self Hu)).
    split; reflexivity.
  - destruct (newSnapshot_run amb request self) as [Hl|Hl Hj|j Hl Hj Hi|j o s t Hl Hj Hi Hb Hr];
      simpl; rewrite ?Hl, ?Hj; try (split; reflexivity); try congruence.
    assert (Ha : authorized request (under_locks self) = false) by exact Hu.
    inversion Hr; subst; try congruence.
    split; [now apply released_under_locks | reflexivity].
Qed.

End Credentials.

(** ** The store *)

Section Store.
Context {HH : Helpers} {HB : BaseServer}.

(** C6.  An authenticated upload whose buffered body [parseSnapshotInfo]
    decodes returns the data envelope and stores the decoded record, under
    the identifier the record carries, together with the bytes; when the
    decoding fails, or the body has no part to read, the handler returns the
    error envelope "Bad snapshot" instead of raising and the server object
    is unchanged. *)
Theorem uploadSnapshot_stores_or_rejects request self :
  authorized request self = true ->
  (forall part parts info,
      multipart request = Some (part :: parts) ->
      parseSnapshotInfo (read_chunks part []) = Ok info ->
      fst (fst (_uploadSnapshot request self))
      = Return (_formatDataResponse (JDict [("slug", JStr (slug info))]))
      /\ PyDict.get (slug info)
           (_snapshots (snd (fst (_uploadSnapshot request self)))) = Some info
      /\ PyDict.get (slug info)
           (_snapshot_data (snd (fst (_uploadSnapshot request self))))
         = Some (read_chunks part []))
  /\ (forall part parts e,
        multipart request = Some (part :: parts) ->
        parseSnapshotInfo (read_chunks part []) = Error e ->
        _uploadSnapshot request self
        = (Return (_formatErrorResponse "Bad snapshot"), self,
           [VerifyHeader true]))
  /\ (multipart request = None \/ multipart request = Some [] ->
      _uploadSnapshot request self
      = (Return (_formatErrorResponse "Bad snapshot"), self,
         [VerifyHeader true])).
Proof.
  intros Ha. pose proof (uploadSnapshot_run request self) as Hr.
  split; [|split].
  - intros part parts info Hm Hp.
    inversion Hr as [Hu|Hu Hbad|part' parts' info' Hu Hm' Hp']; try congruence.
    + exfalso. eapply Hbad; eassumption.
    + assert (part' = part) by congruence. subst part'.
      assert (info' = info) by congruence. subst info'.
      simpl. rewrite !get_set_same. auto.
  - intros part parts e Hm Hp.
    inversion Hr as [Hu|Hu Hbad|part' parts' info' Hu Hm' Hp']; try congruence.
  - intros Hm.
    inversion Hr as [Hu|Hu Hbad|part' parts' info' Hu Hm' Hp']; try congruence.
    destruct Hm; congruence.
Qed.

(** C10.  An authenticated upload whose body decodes to a record carrying an
    identifier already in the store succeeds and replaces that snapshot's
    record and bytes: the data envelope is returned, the identifier now maps
    to the uploaded record and bytes, the keys of both dictionaries are what
    they were (no entry is added, none is duplicated) and every other
    identifier keeps its record and bytes. *)
Theorem uploadSnapshot_replaces request self part parts info :
  authorized request self = true ->
  multipart request = Some (part :: parts) ->
  parseSnapshotInfo (read_chunks part []) = Ok info ->
  paired self ->
  PyDict.mem (slug info) (_snapshots self) = true ->
  exists s t,
    _uploadSnapshot request self
    = (Return (_formatDataResponse (JDict [("slug", JStr (slug info))])), s, t)
    /\ PyDict.get (slug info) (_snapshots s) = Some info
    /\ PyDict.get (slug info) (_snapshot_data s) = Some (read_chunks part [])
    /\ PyDict.keys (_snapshots s) = PyDict.keys (_snapshots self)
    /\ PyDict.keys (_snapshot_data s) = PyDict.keys (_snapshot_data self)
    /\ (forall k, k <> slug info ->
         PyDict.get k (_snapshots s) = PyDict.get k (_snapshots self)
         /\ PyDict.get k (_snapshot_data s) = PyDict.get k (_snapshot_data self)).
Proof.
  intros Ha Hm Hp Hpair Hmem.
  pose proof (uploadSnapshot_run request self) as Hr.
  inversion Hr as [Hu|Hu Hbad|part' parts' info' Hu Hm' Hp']; try congruence.
  - exfalso. eapply Hbad; eassumption.
  - assert (part' = part) by congruence. subst part'.
    assert (info' = info) by congruence. subst info'.
    eexists _, _. split; [reflexivity|]. simpl.
    rewrite !get_set_same, !keys_set, <- (mem_same_keys _ _ _ Hpair), Hmem.
    repeat split; auto; apply get_set_other; congruence.
Qed.

(** C8.  For an authenticated request naming an identifier that is not in
    the store (neither dictionary has it), the detail, download and removal
    handlers each raise [HTTPNotFound] and leave the server object as it
    was.  For an identifier in the store, removal returns the envelope
    "deleted" and takes the identifier out of both dictionaries, so the
    list endpoint answers with the remaining records only and later detail
    and download requests for it raise [HTTPNotFound]. *)
Theorem deleteSnapshot_removes request self k :
  authorized request self = true ->
  PyDict.get "slug" (match_info request) = Some k ->
  paired self ->
  (PyDict.mem k (_snapshots self) = false ->
   _snapshotDetail request self
   = (Raise (Http HTTPNotFound), self, [VerifyHeader true])
   /\ _snapshotDownload request self
      = (Raise (Http HTTPNotFound), self, [VerifyHeader true])
   /\ _deleteSnapshot request self
      = (Raise (Http HTTPNotFound), self, [VerifyHeader true]))
  /\ (PyDict.mem k (_snapshots self) = true ->
      exists s t,
        _deleteSnapshot request self
        = (Return (_formatDataResponse (JStr "deleted")), s, t)
        /\ _snapshots s = PyDict.del k (_snapshots self)
        /\ _snapshot_data s = PyDict.del k (_snapshot_data self)
        /\ PyDict.get k (_snapshots s) = None
        /\ PyDict.get k (_snapshot_data s) = None
        /\ (forall request',
             authorized request' s = true ->
             fst (fst (_getSnapshots request' s))
             = Return (_formatDataResponse
                         (JDict [("snapshots",
                                  JList (map info_json
                                           (PyDict.values
                                              (PyDict.del k (_snapshots self)))))])))
        /\ (forall request',
             authorized request' s = true ->
             PyDict.get "slug" (match_info request') = Some k ->
             _snapshotDetail request' s
             = (Raise (Http HTTPNotFound), s, [VerifyHeader true])
             /\ _snapshotDownload request' s
                = (Raise (Http HTTPNotFound), s, [VerifyHeader true]))).
Proof.
  intros Ha Hk Hpair.
  assert (Hnf : forall (r : Request) (s : SimulatedSupervisor),
             authorized r s = true ->
             PyDict.get "slug" (match_info r) = Some k ->
             PyDict.mem k (_snapshots s) = false ->
             PyDict.mem k (_snapshot_data s) = false ->
             _snapshotDetail r s = (Raise (Http HTTPNotFound), s, [VerifyHeader true])
             /\ _snapshotDownload r s
                = (Raise (Http HTTPNotFound), s, [VerifyHeader true])).
  { intros r s Hra Hrk Hs Hd.
    unfold _snapshotDetail, _snapshotDownload.
    rewrite !verify_then_authorized by assumption.
    unfold bind, gets, raise. simpl. rewrite Hrk. simpl.
    rewrite Hs, Hd. split; reflexivity. }
  pose proof (deleteSnapshot_run request self) as Hr.
  split.
  - intros Hmem.
    assert (Hd : PyDict.mem k (_snapshot_data self) = false)
      by (now rewrite <- (mem_same_keys _ _ _ Hpair)).
    destruct (Hnf request self Ha Hk Hmem Hd) as [H1 H2].
    repeat split; try assumption.
    inversion Hr as [Hu|Hu Hin|k' Hu Hk' Hs Hd'|k' Hu Hk' Hs Hd']; congruence.
  - intros Hmem.
    assert (Hd : PyDict.mem k (_snapshot_data self) = true)
      by (now rewrite <- (mem_same_keys _ _ _ Hpair)).
    inversion Hr as [Hu|Hu Hin|k' Hu Hk' Hs Hd'|k' Hu Hk' Hs Hd']; try congruence.
    + rewrite Hk in Hin. simpl in Hin. congruence.
    + assert (k' = k) by congruence. subst k'.
      eexists _, _. split; [reflexivity|]. simpl.
      rewrite !get_del_same. repeat split.
      * intros request' Ha'. unfold _getSnapshots.
        rewrite verify_then_authorized by assumption. reflexivity.
      * apply Hnf; auto; simpl; apply mem_del_same.
      * apply Hnf; auto; simpl; apply mem_del_same.
Qed.

End Store.

(** ** Creation, with the codec of the specification *)


(** What a successful creation was given and what it stored. *)
Lemma newSnapshot_created amb request self resp s t :
  _newSnapshot amb request self = (Return resp, s, t) ->
  exists j n f a jp p,
    json request = Some j
    /\ authorized request self = true
    /\ json_get j "name" (JStr "Default name") = Ok (JStr n)
    /\ json_get j "password" JNull = Ok jp
    /\ SpecModel.as_password jp = Ok p
    /\ resp = _formatDataResponse
               (JDict [("slug", JStr (generateId (random_ids amb) 8))])
    /\ s = stored (generateId (random_ids amb) 8)
             {| slug := generateId (random_ids amb) 8;
                name := n;
                date := time_now amb;
                size := Z.of_nat (List.length
                          (SpecModel.Encode (generateId (random_ids amb) 8) n
                             (time_now amb)
                             (int_random_uniform (random_draw amb)
                                (_min_snapshot_size self)
                                (_max_snapshot_size self)) f a p));
                folders := f; addons := a;
                protected := negb (String.eqb p EmptyString);
                type := match f, a with [], [] => Full | _, _ => Partial end |}
             (SpecModel.Encode (generateId (random_ids amb) 8) n (time_now amb)
                (int_random_uniform (random_draw amb)
                   (_min_snapshot_size self) (_max_snapshot_size self)) f a p)
             self.
Proof.
  intros Hrun. pose proof (newSnapshot_run amb request self) as Hr.
  rewrite Hrun in Hr.
  inversion Hr as [| |j' Hl Hj Hi|j' o' s' t' Hl Hj Hi Hb Hlr]; subst.
  inversion Hlr
    as [| |password name0 folders0 addons0 data info Ha Hpw Hn Hf Had Hc Hp];
    subst.
  simpl in Hc, Hp.
  unfold SpecModel.createSnapshotTar in Hc.
  destruct (SpecModel.as_text name0) as [n|] eqn:En;
    destruct (SpecModel.as_manifest folders0) as [f|] eqn:Ef;
    destruct (SpecModel.as_manifest addons0) as [a|] eqn:Ea;
    destruct (SpecModel.as_password password) as [p|] eqn:Ep;
    try discriminate.
  injection Hc as <-.
  unfold SpecModel.parseSnapshotInfo in Hp.
  rewrite SpecModelFacts.Decode_Encode in Hp. injection Hp as <-.
  destruct name0; try discriminate. injection En as ->.
  exists j', n, f, a, password, p.
  rewrite released_stored by assumption.
  repeat split; auto.
Qed.

(** C7.  After a successful creation the identifier of the response is
    known to the detail endpoint and to the download endpoint, and the bytes
    the download endpoint serves decode to a record with this identifier,
    with the name the request gave (or the default name) and with the
    protection flag the request's password set; the detail endpoint answers
    with the same record.  *)
Theorem newSnapshot_round_trip amb request self resp s t :
  _newSnapshot amb request self = (Return resp, s, t) ->
  exists id n jp j info data,
    resp = _formatDataResponse (JDict [("slug", JStr id)])
    /\ json request = Some j
    /\ json_get j "name" (JStr "Default name") = Ok (JStr n)
    /\ json_get j "password" JNull = Ok jp
    /\ SpecModel.Decode data = Some info
    /\ slug info = id
    /\ name info = n
    /\ protected info
       = match jp with
         | JStr p => negb (String.eqb p EmptyString)
         | _ => false
         end
    /\ forall request',
        authorized request' s = true ->
        PyDict.get "slug" (match_info request') = Some id ->
        _snapshotDetail request' s
        = (Return (_formatDataResponse (info_json info)), s, [VerifyHeader true])
        /\ _snapshotDownload request' s
           = (Return (BytesResponse data), s, [VerifyHeader true]).
Proof.
  intros Hrun.
  destruct (newSnapshot_created _ _ _ _ _ _ Hrun)
    as (j & n & f & a & jp & p & Hj & Ha & Hn & Hjp & Hp & -> & ->).
  eexists _, n, jp, j, _,
    (SpecModel.Encode (generateId (random_ids amb) 8) n (time_now amb)
       (int_random_uniform (random_draw amb)
          (_min_snapshot_size self) (_max_snapshot_size self)) f a p).
  split; [reflexivity|]. split; [assumption|]. split; [assumption|].
  split; [assumption|]. split; [apply SpecModelFacts.Decode_Encode|].
  split; [reflexivity|]. split; [reflexivity|]. split.
  - simpl. destruct jp; try discriminate; simpl in Hp; injection Hp as <-;
      reflexivity.
  - intros request' Ha' Hk.
    unfold _snapshotDetail, _snapshotDownload.
    rewrite !verify_then_authorized by assumption.
    unfold bind, gets, lift, ret. simpl. rewrite Hk. simpl.
    unfold PyDict.mem. rewrite !get_set_same. simpl. split; reflexivity.
Qed.





(** A creation that gets through the gate with a credential and a body the
    codec accepts succeeds. *)
Lemma newSnapshot_succeeds amb request self j jn jf ja jp n f a p :
  _snapshot_lock self = false ->
  _snapshot_inner_lock self = false ->
  authorized request self = true ->
  json request = Some j ->
  json_get j "password" JNull = Ok jp ->
  json_get j "name" (JStr "Default name") = Ok jn ->
  json_get j "folders" JNull = Ok jf ->
  json_get j "addons" JNull = Ok ja ->
  SpecModel.as_text jn = Ok n ->
  SpecModel.as_manifest jf = Ok f ->
  SpecModel.as_manifest ja = Ok a ->
  SpecModel.as_password jp = Ok p ->
  _newSnapshot amb request self
  = (Return (_formatDataResponse
               (JDict [("slug", JStr (generateId (random_ids amb) 8))])),
     stored (generateId (random_ids amb) 8)
       (SpecModel.decoded (generateId (random_ids amb) 8) n (time_now amb)
          (int_random_uniform (random_draw amb)
             (_min_snapshot_size self) (_max_snapshot_size self)) f a p)
       (SpecModel.Encode (generateId (random_ids amb) 8) n (time_now amb)
          (int_random_uniform (random_draw amb)
             (_min_snapshot_size self) (_max_snapshot_size self)) f a p)
       self,
     [Acquire snapshot_lock; Acquire snapshot_inner_lock;
      VerifyHeader true; SetSnapshot (generateId (random_ids amb) 8);
      SetSnapshotData (generateId (random_ids amb) 8);
      Release snapshot_inner_lock; Release snapshot_lock]).
Proof.
  intros Hl Hi Hauth Hj Hjp Hjn Hjf Hja Hn Hf Ha Hp.
  destruct (newSnapshot_run amb request self)
    as [Hl'|Hl' Hj'|j' Hl' Hj' Hi'|j' o s t Hl' Hj' Hi' Hb Hr]; try congruence.
  assert (j' = j) by congruence. subst j'.
  erewrite newSnapshot_locked_stores in Hb; try eassumption.
  - injection Hb as <- <- <-. now rewrite released_stored.
  - simpl. unfold SpecModel.createSnapshotTar.
    rewrite Hn, Hf, Ha, Hp. reflexivity.
  - simpl. unfold SpecModel.parseSnapshotInfo.
    now rewrite SpecModelFacts.Decode_Encode.
Qed.

(** ** The claims on sample requests *)

Lemma sample_creation_returns draw :
  _newSnapshot (ambient draw) (create_request token_headers) (init 8080)
  = (Return (_formatDataResponse (JDict [("slug", JStr "abcdefgh")])),
     created draw, created_trace).
Proof.
  pose proof (newSnapshot_succeeds (ambient draw) (create_request token_headers)
              (init 8080) nightly (JStr "nightly") (JList [JStr "share"])
              JNull JNull "nightly" ["share"] [] EmptyString
              eq_refl eq_refl eq_refl eq_refl eq_refl eq_refl eq_refl eq_refl
              eq_refl eq_refl eq_refl eq_refl)
    as Hrun.
  exact Hrun.
Qed.

Lemma newSnapshot_busy_witness :
  _snapshot_lock gate_held = true
  /\ _newSnapshot (ambient 0) (create_request no_headers) gate_held
     = (Raise (Http HTTPBadRequest), gate_held, [])
  /\ Http HTTPBadRequest <> Http HTTPUnauthorized.
Proof.
  split; [reflexivity|].
  exact (newSnapshot_busy (ambient 0) (create_request no_headers) gate_held
           eq_refl).
Defined.

Lemma toggleBlockSnapshot_parity_witness :
  Nat.odd (toggles [Toggle]) = true
  /\ _newSnapshot (ambient 0) (create_request token_headers)
       (run [Toggle] (init 8080))
     = (Raise (Http HTTPBadRequest), run [Toggle] (init 8080), []).
Proof.
  split; [reflexivity|].
  exact (proj1 (proj2 (proj2
           (toggleBlockSnapshot_parity 8080 [Toggle] (ambient 0)
              (create_request token_headers)))) eq_refl).
Defined.

Lemma newSnapshot_lock_order_witness :
  _newSnapshot (ambient 0) (create_request no_headers) (init 8080)
  = (Raise (Http HTTPUnauthorized), init 8080,
     [Acquire snapshot_lock; Acquire snapshot_inner_lock; VerifyHeader false;
      Release snapshot_inner_lock; Release snapshot_lock])
  /\ ((Raise (Http HTTPUnauthorized) <> @Suspend Response
       /\ [Acquire snapshot_lock; Acquire snapshot_inner_lock;
           VerifyHeader false; Release snapshot_inner_lock;
           Release snapshot_lock] = []
       /\ init 8080 = init 8080)
      \/ (Raise (Http HTTPUnauthorized) = @Suspend Response
          /\ [Acquire snapshot_lock; Acquire snapshot_inner_lock;
              VerifyHeader false; Release snapshot_inner_lock;
              Release snapshot_lock] = [Acquire snapshot_lock]
          /\ _snapshot_inner_lock (init 8080) = true)
      \/ (exists body,
            [Acquire snapshot_lock; Acquire snapshot_inner_lock;
             VerifyHeader false; Release snapshot_inner_lock;
             Release snapshot_lock]
            = Acquire snapshot_lock :: Acquire snapshot_inner_lock
              :: VerifyHeader
                   (authorized (create_request no_headers) (init 8080))
              :: body ++ [Release snapshot_inner_lock; Release snapshot_lock]
            /\ forallb is_store_event body = true
            /\ (authorized (create_request no_headers) (init 8080) = false ->
                Raise (Http HTTPUnauthorized)
                = @Raise Response (Http HTTPUnauthorized)
                /\ body = [])
            /\ Raise (Http HTTPUnauthorized) <> @Suspend Response
            /\ _snapshot_lock (init 8080) = false
            /\ _snapshot_inner_lock (init 8080) = false)).
Proof.
  split; [reflexivity|].
  exact (newSnapshot_lock_order (ambient 0) (create_request no_headers)
           (init 8080) _ _ _ eq_refl).
Defined.

(** C5, as it is stated, fails when the gate is held: a creation request
    without a credential is refused with [HTTPBadRequest] before its
    credential is looked at. *)
Lemma unauthorized_counterexample :
  authorized (create_request no_headers) gate_held = false
  /\ fst (fst (handle h_newSnapshot (ambient 0) (create_request no_headers)
                 gate_held))
     = Raise (Http HTTPBadRequest)
  /\ fst (fst (handle h_newSnapshot (ambient 0) (create_request no_headers)
                 gate_held))
     <> Raise (Http HTTPUnauthorized).
Proof. split; [reflexivity | split; [reflexivity | discriminate]]. Qed.

(** The route left out of C5 as amended: the options of an add-on other
    than [self] are updated without any credential being looked at. *)
Example updateOptions_unchecked :
  let request :=
    {| headers := no_headers; match_info := [("slug", "42")];
       json := Some (JDict [("state", JStr "stopped")]); multipart := None |} in
  authorized request (init 8080) = false
  /\ fst (fst (_updateOptions request (init 8080)))
     = Return (_formatDataResponse (JDict []))
  /\ snd (_updateOptions request (init 8080)) = []
  /\ _addons (snd (fst (_updateOptions request (init 8080))))
     <> _addons (init 8080).
Proof.
  split; [reflexivity | split; [reflexivity | split; [reflexivity|]]].
  discriminate.
Qed.

Lemma unauthorized_leaves_state_witness :
  In (GET, "/snapshots", h_getSnapshots) routes
  /\ authorized (slug_request no_headers "abc12345") uploaded = false
  /\ _snapshot_inner_lock uploaded = false
  /\ snd (fst (handle h_getSnapshots (ambient 0)
                 (slug_request no_headers "abc12345") uploaded))
     = uploaded
  /\ fst (fst (handle h_getSnapshots (ambient 0)
                 (slug_request no_headers "abc12345") uploaded))
     = Raise (Http HTTPUnauthorized).
Proof.
  assert (Hin : In (GET, "/snapshots", h_getSnapshots) routes)
    by (unfold routes; repeat (first [left; reflexivity | right])).
  split; [exact Hin|]. split; [reflexivity|]. split; [reflexivity|].
  exact (unauthorized_leaves_state GET "/snapshots" h_getSnapshots (ambient 0)
           (slug_request no_headers "abc12345") uploaded Hin eq_refl eq_refl
           (fun H => match H with end)).
Defined.

Lemma uploadSnapshot_stores_or_rejects_witness :
  authorized (upload_request token_headers [sample_blob]) (init 8080) = true
  /\ multipart (upload_request token_headers [sample_blob])
     = Some [[sample_blob]]
  /\ parseSnapshotInfo (read_chunks [sample_blob] []) = Ok sample_info
  /\ (fst (fst (_uploadSnapshot (upload_request token_headers [sample_blob])
                  (init 8080)))
      = Return (_formatDataResponse (JDict [("slug", JStr (slug sample_info))]))
      /\ PyDict.get (slug sample_info)
           (_snapshots
              (snd (fst (_uploadSnapshot
                           (upload_request token_headers [sample_blob])
                           (init 8080)))))
         = Some sample_info
      /\ PyDict.get (slug sample_info)
           (_snapshot_data
              (snd (fst (_uploadSnapshot
                           (upload_request token_headers [sample_blob])
                           (init 8080)))))
         = Some (read_chunks [sample_blob] []))
  /\ parseSnapshotInfo (read_chunks [[x00]] []) = Error (PyError "CorruptArchive")
  /\ _uploadSnapshot (upload_request token_headers [[x00]]) (init 8080)
     = (Return (_formatErrorResponse "Bad snapshot"), init 8080,
        [VerifyHeader true]).
Proof.
  split; [reflexivity|]. split; [reflexivity|]. split; [reflexivity|].
  split.
  - exact (proj1 (uploadSnapshot_stores_or_rejects
                    (upload_request token_headers [sample_blob]) (init 8080)
                    eq_refl)
             [sample_blob] [] sample_info eq_refl eq_refl).
  - split; [reflexivity|].
    exact (proj1 (proj2 (uploadSnapshot_stores_or_rejects
                           (upload_request token_headers [[x00]]) (init 8080)
                           eq_refl))
             [[x00]] [] (PyError "CorruptArchive") eq_refl eq_refl).
Defined.

Lemma paired_uploaded : paired uploaded.
Proof. reflexivity. Qed.

Lemma uploadSnapshot_replaces_witness :
  authorized (upload_request token_headers [other_blob]) uploaded = true
  /\ multipart (upload_request token_headers [other_blob]) = Some [[other_blob]]
  /\ parseSnapshotInfo (read_chunks [other_blob] []) = Ok other_info
  /\ paired uploaded
  /\ PyDict.mem (slug other_info) (_snapshots uploaded) = true
  /\ exists s t,
      _uploadSnapshot (upload_request token_headers [other_blob]) uploaded
      = (Return (_formatDataResponse (JDict [("slug", JStr (slug other_info))])),
         s, t)
      /\ PyDict.get (slug other_info) (_snapshots s) = Some other_info
      /\ PyDict.get (slug other_info) (_snapshot_data s)
         = Some (read_chunks [other_blob] [])
      /\ PyDict.keys (_snapshots s) = PyDict.keys (_snapshots uploaded)
      /\ PyDict.keys (_snapshot_data s) = PyDict.keys (_snapshot_data uploaded)
      /\ (forall k, k <> slug other_info ->
           PyDict.get k (_snapshots s) = PyDict.get k (_snapshots uploaded)
           /\ PyDict.get k (_snapshot_data s)
              = PyDict.get k (_snapshot_data uploaded)).
Proof.
  split; [reflexivity|]. split; [reflexivity|]. split; [reflexivity|].
  split; [exact paired_uploaded|]. split; [reflexivity|].
  exact (uploadSnapshot_replaces (upload_request token_headers [other_blob])
           uploaded [other_blob] [] other_info eq_refl eq_refl eq_refl
           paired_uploaded eq_refl).
Defined.

Lemma deleteSnapshot_removes_witness :
  authorized (slug_request token_headers "abc12345") uploaded = true
  /\ PyDict.get "slug" (match_info (slug_request token_headers "abc12345"))
     = Some "abc12345"
  /\ paired uploaded
  /\ PyDict.mem "abc12345" (_snapshots uploaded) = true
  /\ PyDict.mem "missing" (_snapshots uploaded) = false
  /\ (_snapshotDetail (slug_request token_headers "missing") uploaded
      = (Raise (Http HTTPNotFound), uploaded, [VerifyHeader true])
      /\ _snapshotDownload (slug_request token_headers "missing") uploaded
         = (Raise (Http HTTPNotFound), uploaded, [VerifyHeader true])
      /\ _deleteSnapshot (slug_request token_headers "missing") uploaded
         = (Raise (Http HTTPNotFound), uploaded, [VerifyHeader true]))
  /\ exists s t,
      _deleteSnapshot (slug_request token_headers "abc12345") uploaded
      = (Return (_formatDataResponse (JStr "deleted")), s, t)
      /\ _snapshots s = PyDict.del "abc12345" (_snapshots uploaded)
      /\ _snapshot_data s = PyDict.del "abc12345" (_snapshot_data uploaded)
      /\ PyDict.get "abc12345" (_snapshots s) = None
      /\ PyDict.get "abc12345" (_snapshot_data s) = None
      /\ (forall request',
           authorized request' s = true ->
           fst (fst (_getSnapshots request' s))
           = Return (_formatDataResponse
                       (JDict [("snapshots",
                                JList (map info_json
                                         (PyDict.values
                                            (PyDict.del "abc12345"
                                               (_snapshots uploaded)))))])))
      /\ (forall request',
           authorized request' s = true ->
           PyDict.get "slug" (match_info request') = Some "abc12345" ->
           _snapshotDetail request' s
           = (Raise (Http HTTPNotFound), s, [VerifyHeader true])
           /\ _snapshotDownload request' s
              = (Raise (Http HTTPNotFound), s, [VerifyHeader true])).
Proof.
  split; [reflexivity|]. split; [reflexivity|].
  split; [exact paired_uploaded|]. split; [reflexivity|].
  split; [reflexivity|]. split.
  - exact (proj1 (deleteSnapshot_removes
                    (slug_request token_headers "missing") uploaded "missing"
                    eq_refl eq_refl paired_uploaded) eq_refl).
  - exact (proj2 (deleteSnapshot_removes
                    (slug_request token_headers "abc12345") uploaded "abc12345"
                    eq_refl eq_refl paired_uploaded) eq_refl).
Defined.

Lemma newSnapshot_round_trip_witness :
  _newSnapshot (ambient 0) (create_request token_headers) (init 8080)
  = (Return (_formatDataResponse (JDict [("slug", JStr "abcdefgh")])),
     created 0, created_trace)
  /\ exists id n jp j info data,
      _formatDataResponse (JDict [("slug", JStr "abcdefgh")])
      = _formatDataResponse (JDict [("slug", JStr id)])
      /\ json (create_request token_headers) = Some j
      /\ json_get j "name" (JStr "Default name") = Ok (JStr n)
      /\ json_get j "password" JNull = Ok jp
      /\ SpecModel.Decode data = Some info
      /\ slug info = id
      /\ name info = n
      /\ protected info
         = match jp with
           | JStr p => negb (String.eqb p EmptyString)
           | _ => false
           end
      /\ forall request',
          authorized request' (created 0) = true ->
          PyDict.get "slug" (match_info request') = Some id ->
          _snapshotDetail request' (created 0)
          = (Return (_formatDataResponse (info_json info)), created 0,
             [VerifyHeader true])
          /\ _snapshotDownload request' (created 0)
             = (Return (BytesResponse data), created 0, [VerifyHeader true]).
Proof.
  split; [exact (sample_creation_returns 0)|].
  exact (newSnapshot_round_trip (ambient 0) (create_request token_headers)
           (init 8080)
           (_formatDataResponse (JDict [("slug", JStr "abcdefgh")]))
           (created 0) created_trace (sample_creation_returns 0)).
Defined.



(** * Further properties of the handlers *)

(** ** What the locks do not reach *)

Section LockBlind.
Context {HH : Helpers} {HB : BaseServer}.

Lemma lock_blind_ret {A} (a : A) : lock_blind (ret a).
Proof. intros outer inner s. reflexivity. Qed.

Lemma lock_blind_raise {A} e : lock_blind (@raise A e).
Proof. intros outer inner s. reflexivity. Qed.

Lemma lock_blind_emit e : lock_blind (emit e).
Proof. intros outer inner s. reflexivity. Qed.

Lemma lock_blind_lift {A} (r : Result A) : lock_blind (lift r).
Proof. intros outer inner s. destruct r; reflexivity. Qed.

Lemma lock_blind_gets {A} (f : SimulatedSupervisor -> A) :
  (forall outer inner s, f (with_locks outer inner s) = f s) ->
  lock_blind (gets f).
Proof. intros Hf outer inner s. unfold gets. now rewrite Hf. Qed.

Lemma lock_blind_modify f :
  (forall outer inner s,
      f (with_locks outer inner s) = with_locks outer inner (f s)) ->
  lock_blind (modify f).
Proof. intros Hf outer inner s. unfold modify. now rewrite Hf. Qed.

Lemma lock_blind_bind {A B} (m : M A) (f : A -> M B) :
  lock_blind m -> (forall a, lock_blind (f a)) -> lock_blind (bind m f).
Proof.
  intros Hm Hf outer inner s. unfold bind. rewrite Hm.
  destruct (m s) as [[[a|e|] s1] t1]; try reflexivity.
  rewrite Hf. now destruct (f a s1) as [[o s2] t2].
Qed.

Lemma lock_blind_try_except {A} (m : M A) (handler : Exn -> M A) :
  lock_blind m -> (forall e, lock_blind (handler e)) ->
  lock_blind (try_except m handler).
Proof.
  intros Hm Hh outer inner s. unfold try_except. rewrite Hm.
  destruct (m s) as [[[a|e|] s1] t1]; try reflexivity.
  rewrite Hh. now destruct (handler e s1) as [[o s2] t2].
Qed.

End LockBlind.

Ltac lock_blind_step :=
  lazymatch goal with
  | |- lock_blind (bind _ _) => apply lock_blind_bind; [|intro]
  | |- lock_blind (ret _) => apply lock_blind_ret
  | |- lock_blind (raise _) => apply lock_blind_raise
  | |- lock_blind (emit _) => apply lock_blind_emit
  | |- lock_blind (lift _) => apply lock_blind_lift
  | |- lock_blind (gets _) => apply lock_blind_gets; reflexivity
  | |- lock_blind (modify _) => apply lock_blind_modify; reflexivity
  | |- lock_blind (try_except _ _) => apply lock_blind_try_except; [|intro]
  | |- lock_blind (match ?x with _ => _ end) => destruct x
  | |- lock_blind (let _ := _ in _) => cbv zeta
  end.

Ltac unfold_head :=
  lazymatch goal with
  | |- _ _ ?m => let f := head_of m in unfold f
  | |- _ ?m => let f := head_of m in unfold f
  end.

Section Reach.
Context {HH : Helpers} {HB : BaseServer}.

(** X1.  The handlers that answer a query ([_authenticate], [_miscInfo],
    [_selfInfo], [_addonInfo], [_snapshotDownload], [_snapshotDetail],
    [_coreInfo], [_supervisorInfo], the two log handlers and
    [_getSnapshots]) leave the server object exactly as it was, whatever
    the request and whatever they return or raise. *)
Theorem read_only_handlers_leave_state h amb request self :
  read_only h = true ->
  snd (fst (handle h amb request self)) = self.
Proof.
  intros Hh.
  assert (Hs : stable (fun s s' => s' = s) (handle h amb request)).
  { assert (Hr : forall s : SimulatedSupervisor, s = s) by reflexivity.
    assert (Ht : forall s1 s2 s3 : SimulatedSupervisor,
               s2 = s1 -> s3 = s2 -> s3 = s1) by congruence.
    destruct h; try discriminate; simpl; unfold_handler;
      stable_tac idtac. }
  apply Hs.
Qed.

(** X2.  Only [_newSnapshot] looks at the locks: every other handler gives
    the same outcome and trace and makes the same changes whether the outer
    and the inner lock are held or free, and leaves both as they were. *)
Theorem other_handlers_ignore_locks h amb request self outer inner :
  h <> h_newSnapshot ->
  handle h amb request (with_locks outer inner self)
  = match handle h amb request self with
    | (o, s, t) => (o, with_locks outer inner s, t)
    end.
Proof.
  intros Hh. revert outer inner self.
  change (lock_blind (handle h amb request)).
  destruct h; try congruence; simpl; unfold_head;
    unfold _verifyHeader, request_json, set_snapshot, set_snapshot_data,
      del_snapshot, del_snapshot_data;
    repeat lock_blind_step.
Qed.

(** X3.  [_newSnapshot] changes nothing when it raises: whether it is
    refused at the gate, cannot read the body, fails the credential check
    or fails while building or parsing the archive, the server object
    after the call, locks included, is the one before it. *)
Theorem newSnapshot_raise_leaves_state amb request self e s t :
  _newSnapshot amb request self = (Raise e, s, t) ->
  s = self.
Proof.
  intros Hrun. pose proof (newSnapshot_run amb request self) as Hr.
  rewrite Hrun in Hr.
  inversion Hr as [| |j Hl Hj Hi|j o s' t' Hl Hj Hi Hb Hlr]; subst; auto.
  inversion Hlr; subst; now apply released_under_locks.
Qed.

(** X4.  [toggleBlockSnapshot] always returns, without waiting or raising,
    and calling it twice gives back the server object it started from. *)
Theorem toggleBlockSnapshot_involutive self :
  fst (fst (toggleBlockSnapshot self)) = Return tt
  /\ snd (fst (toggleBlockSnapshot (snd (fst (toggleBlockSnapshot self)))))
     = self.
Proof.
  split.
  - unfold toggleBlockSnapshot, bind, gets, release, acquire. simpl.
    destruct (_snapshot_lock self) eqn:E; simpl; rewrite E; reflexivity.
  - rewrite !toggle_state. destruct self as [? ? ? [] ? ? ? ? ? ? ? ? ? ? ? ? ?];
      reflexivity.
Qed.

End Reach.

(** ** The store, further *)

Lemma values_set_new {K V : Type} {EK : Eqb K} (k : K) (v : V) (d : dict K V) :
  PyDict.mem k d = false ->
  PyDict.values (PyDict.set k v d) = PyDict.values d ++ [v].
Proof.
  unfold PyDict.mem.
  induction d as [|[k' v'] d IH]; simpl; [reflexivity|].
  destruct (eqb k k') eqn:E; [discriminate|].
  intros Hm. simpl. now rewrite IH.
Qed.

Lemma get_del_Some {K V : Type} {EK : Eqb K} (k k' : K) (v : V) (d : dict K V) :
  PyDict.get k' (PyDict.del k d) = Some v -> PyDict.get k' d = Some v.
Proof.
  intros Hg. destruct (eqb k k') eqn:E.
  - apply eqb_eq in E. subst k'. rewrite get_del_same in Hg. discriminate.
  - rewrite get_del_other in Hg; [assumption|].
    intros ->. rewrite eqb_refl in E. discriminate.
Qed.

Lemma read_chunks_concat chunks received :
  Forall (fun chunk => chunk <> []) chunks ->
  read_chunks chunks received = received ++ List.concat chunks.
Proof.
  intros Hne. revert received.
  induction Hne as [|chunk chunks Hc _ IH]; intros received; simpl.
  - now rewrite app_nil_r.
  - destruct chunk as [|b chunk]; [contradiction|].
    now rewrite IH, <- app_assoc.
Qed.

Section StoreFurther.
Context {HH : Helpers} {HB : BaseServer}.

(** X5.  [_newSnapshot] does not look whether the identifier it generated
    is in use.  When it returns, the record and the bytes are stored under
    that identifier: a snapshot that had it is replaced where it stood (the
    keys stay as they were), a new identifier goes last in both
    dictionaries, and every other snapshot keeps its record and bytes. *)
Theorem newSnapshot_inserts amb request self resp s t :
  _newSnapshot amb request self = (Return resp, s, t) ->
  exists info data,
    parseSnapshotInfo data = Ok info
    /\ PyDict.get (generateId (random_ids amb) 8) (_snapshots s) = Some info
    /\ PyDict.get (generateId (random_ids amb) 8) (_snapshot_data s) = Some data
    /\ PyDict.keys (_snapshots s)
       = (if PyDict.mem (generateId (random_ids amb) 8) (_snapshots self)
          then PyDict.keys (_snapshots self)
          else PyDict.keys (_snapshots self) ++ [generateId (random_ids amb) 8])
    /\ PyDict.keys (_snapshot_data s)
       = (if PyDict.mem (generateId (random_ids amb) 8) (_snapshot_data self)
          then PyDict.keys (_snapshot_data self)
          else PyDict.keys (_snapshot_data self)
               ++ [generateId (random_ids amb) 8])
    /\ forall k, k <> generateId (random_ids amb) 8 ->
         PyDict.get k (_snapshots s) = PyDict.get k (_snapshots self)
         /\ PyDict.get k (_snapshot_data s) = PyDict.get k (_snapshot_data self).
Proof.
  intros Hrun. pose proof (newSnapshot_run amb request self) as Hr.
  rewrite Hrun in Hr.
  inversion Hr as [| |j Hl Hj Hi|j o s' t' Hl Hj Hi Hb Hlr]; subst.
  inversion Hlr
    as [| |password name0 folders0 addons0 data info Ha Hpw Hn Hf Had Hc Hp];
    subst.
  exists info, data. rewrite released_stored by assumption. simpl.
  rewrite !get_set_same, !keys_set.
  repeat split; auto; apply get_set_other; congruence.
Qed.

(** X6.  [_uploadSnapshot] reads only the first part of the body and only
    the concatenation of its chunks matters: two requests with the same two
    credential headers whose first parts, cut into non-empty chunks in any
    way, hold the same bytes are handled identically. *)
Theorem uploadSnapshot_chunking request1 request2 self part1 parts1 part2 parts2 :
  headers request1 "X-Supervisor-Token" = headers request2 "X-Supervisor-Token" ->
  headers request1 "Authorization" = headers request2 "Authorization" ->
  multipart request1 = Some (part1 :: parts1) ->
  multipart request2 = Some (part2 :: parts2) ->
  Forall (fun chunk => chunk <> []) part1 ->
  Forall (fun chunk => chunk <> []) part2 ->
  List.concat part1 = List.concat part2 ->
  _uploadSnapshot request1 self = _uploadSnapshot request2 self.
Proof.
  intros Ht Hb Hm1 Hm2 Hn1 Hn2 Hc.
  assert (Ha : authorized request1 self = authorized request2 self)
    by (unfold authorized; now rewrite Ht, Hb).
  unfold _uploadSnapshot.
  destruct (authorized request2 self) eqn:Ha2.
  - rewrite !verify_then_authorized by assumption.
    unfold try_except, bind. rewrite Hm1, Hm2. simpl.
    rewrite !read_chunks_concat by assumption. simpl. now rewrite Hc.
  - now rewrite !verify_then_unauthorized by assumption.
Qed.

(** X7.  The list endpoint answers in insertion order: after an
    authenticated upload of an archive whose identifier is not in the store,
    [_getSnapshots] returns the records it returned before, followed by the
    uploaded one. *)
Theorem uploadSnapshot_listed_last request self part parts info request' :
  authorized request self = true ->
  multipart request = Some (part :: parts) ->
  parseSnapshotInfo (read_chunks part []) = Ok info ->
  PyDict.mem (slug info) (_snapshots self) = false ->
  authorized request' self = true ->
  fst (fst (_getSnapshots request' self))
  = Return (_formatDataResponse
              (JDict [("snapshots",
                       JList (map info_json (PyDict.values (_snapshots self))))]))
  /\ fst (fst (_getSnapshots request'
                 (snd (fst (_uploadSnapshot request self)))))
     = Return (_formatDataResponse
                 (JDict [("snapshots",
                          JList (map info_json (PyDict.values (_snapshots self))
                                 ++ [info_json info]))])).
Proof.
  intros Ha Hm Hp Hnew Ha'.
  pose proof (uploadSnapshot_run request self) as Hr.
  inversion Hr as [Hu|Hu Hbad|part' parts' info' Hu Hm' Hp' Heq]; try congruence.
  - exfalso. eapply Hbad; eassumption.
  - assert (part' = part) by congruence. subst part'.
    assert (info' = info) by congruence. subst info'.
    unfold _getSnapshots.
    rewrite !verify_then_authorized by assumption.
    split; [reflexivity|]. simpl.
    rewrite values_set_new by assumption. now rewrite map_app.
Qed.

(** X8.  After any sequence of operations on the initial server object the
    download endpoint gets as far as the detail endpoint does: whenever
    [_snapshotDetail] raises, [_snapshotDownload] raises the same exception
    for the same request, and whenever [_snapshotDetail] returns a record,
    the store has bytes under the same identifier and [_snapshotDownload]
    hands them to [serve_bytes] and answers with what it gives;
    [serve_bytes], of the absent base class, is taken to give a response. *)
Theorem detail_download_agree ports ops request :
  (forall e,
      fst (fst (_snapshotDetail request (run ops (init ports)))) = Raise e ->
      fst (fst (_snapshotDownload request (run ops (init ports)))) = Raise e)
  /\ (forall r,
        fst (fst (_snapshotDetail request (run ops (init ports)))) = Return r ->
        exists k info data,
          PyDict.get "slug" (match_info request) = Some k
          /\ PyDict.get k (_snapshots (run ops (init ports))) = Some info
          /\ PyDict.get k (_snapshot_data (run ops (init ports))) = Some data
          /\ r = _formatDataResponse (info_json info)
          /\ fst (fst (_snapshotDownload request (run ops (init ports))))
             = Return (serve_bytes request data)).
Proof.
  assert (Hp : paired (run ops (init ports))) by (apply run_paired; reflexivity).
  set (s := run ops (init ports)) in *.
  unfold _snapshotDetail, _snapshotDownload.
  destruct (authorized request s) eqn:Ha.
  2:{ rewrite !verify_then_unauthorized by assumption. simpl.
      split; [auto | discriminate]. }
  rewrite !verify_then_authorized by assumption.
  unfold bind, gets, raise, lift, ret. simpl.
  destruct (PyDict.get "slug" (match_info request)) as [k|]; simpl;
    [|split; [auto | discriminate]].
  rewrite <- (mem_same_keys k _ _ Hp).
  unfold PyDict.mem.
  destruct (PyDict.get k (_snapshots s)) as [info|] eqn:Es; simpl;
    [|split; [auto | discriminate]].
  assert (Hd : PyDict.mem k (_snapshot_data s) = true).
  { rewrite <- (mem_same_keys k _ _ Hp). unfold PyDict.mem. now rewrite Es. }
  unfold PyDict.mem in Hd.
  destruct (PyDict.get k (_snapshot_data s)) as [data|] eqn:Ed; [|discriminate].
  simpl. split; [discriminate|].
  intros r [= <-]. exists k, info, data. auto.
Qed.

(** X18.  A removal that returns takes out the named identifier only: in
    both dictionaries the remaining identifiers keep their order, and every
    other identifier keeps its record and its bytes. *)
Theorem deleteSnapshot_keeps_others request self resp s t :
  _deleteSnapshot request self = (Return resp, s, t) ->
  exists k,
    PyDict.get "slug" (match_info request) = Some k
    /\ PyDict.keys (_snapshots s)
       = filter (fun k' => negb (String.eqb k k')) (PyDict.keys (_snapshots self))
    /\ PyDict.keys (_snapshot_data s)
       = filter (fun k' => negb (String.eqb k k'))
           (PyDict.keys (_snapshot_data self))
    /\ forall k', k' <> k ->
         PyDict.get k' (_snapshots s) = PyDict.get k' (_snapshots self)
         /\ PyDict.get k' (_snapshot_data s)
            = PyDict.get k' (_snapshot_data self).
Proof.
  intros Hrun. pose proof (deleteSnapshot_run request self) as Hr.
  rewrite Hrun in Hr.
  inversion Hr as [| |k Hu Hk Hs Hd|]; subst.
  exists k. simpl. rewrite !keys_del.
  repeat split; auto; apply get_del_other; congruence.
Qed.

End StoreFurther.

(** *** Records under their own identifier *)

Section Keyed.
Context {HH : Helpers} {HB : BaseServer}.

(** What is asked of the archive helpers: the record read back from an
    archive carries the identifier the archive was built with. *)
Hypothesis codec_keeps_slug :
  forall id name date padSize included_folders included_addons password data info,
    createSnapshotTar id name date padSize included_folders included_addons
      password = Ok data ->
    parseSnapshotInfo data = Ok info ->
    slug info = id.

Lemma keyed_stored k info data self :
  slug info = k -> keyed self -> keyed (stored k info data self).
Proof.
  intros Hk Hkeyed k' info'. unfold stored. simpl.
  destruct (String.eqb k k') eqn:E.
  - apply String.eqb_eq in E. subst k'. rewrite get_set_same.
    intros [= <-]. assumption.
  - rewrite get_set_other.
    + apply Hkeyed.
    + intros ->. rewrite String.eqb_refl in E. discriminate.
Qed.

Lemma exec_keyed op self : keyed self -> keyed (exec op self).
Proof.
  intros Hkeyed. destruct op as [h amb request|]; simpl.
  - destruct (apart_from_snapshots h) eqn:Hh.
    + destruct (handle_same_snapshots h amb request Hh self) as [_ [Hs _]].
      unfold keyed. rewrite Hs. exact Hkeyed.
    + destruct h; try discriminate; simpl.
      * destruct (deleteSnapshot_run request self); simpl; auto;
          intros k' info' Hg; simpl in Hg;
          apply get_del_Some in Hg; now apply Hkeyed.
      * destruct (uploadSnapshot_run request self); simpl; auto.
        now apply keyed_stored.
      * destruct (newSnapshot_run amb request self)
          as [Hl|Hl Hj|j Hl Hj Hi|j o s t Hl Hj Hi Hb Hr]; simpl; auto.
        inversion Hr; subst; try (rewrite released_under_locks; assumption).
        rewrite released_stored by assumption.
        apply keyed_stored; [|assumption].
        eapply codec_keeps_slug; eassumption.
  - rewrite toggle_state. exact Hkeyed.
Qed.

(** X9.  Provided the archive helpers give back the identifier an archive
    was built with, every record in the store sits under the identifier it
    carries, after any sequence of operations on the initial server object:
    what the list endpoint shows as a snapshot's slug is the slug the detail
    and download endpoints know it by. *)
Theorem records_keyed_by_slug ports ops k info :
  PyDict.get k (_snapshots (run ops (init ports))) = Some info ->
  slug info = k.
Proof.
  assert (Hk : forall ops self, keyed self -> keyed (run ops self)).
  { intros ops'. induction ops' as [|op ops' IH]; intros self Hs; simpl; auto.
    apply IH. now apply exec_keyed. }
  apply (Hk ops (init ports)). intros k' info' Hg. discriminate.
Qed.

End Keyed.

(** ** The recorded state *)

Section Recorded.
Context {HH : Helpers} {HB : BaseServer}.

(** X10.  An authenticated state update whose body has both a state and
    attributes returns and records them under the entity of the path:
    [getEntity] and [getAttributes] give them back, every other entity keeps
    what it had, and [clearEntities] afterwards forgets all entity states
    but not the attributes. *)
Theorem haStateUpdate_recorded request self j state attributes :
  authorized request self = true ->
  json request = Some j ->
  json_item j "state" = Ok state ->
  json_item j "attributes" = Ok attributes ->
  exists s t,
    _haStateUpdate request self = (Return EmptyResponse, s, t)
    /\ getEntity (PyDict.get "entity" (match_info request)) s = Some state
    /\ getAttributes (PyDict.get "entity" (match_info request)) s
       = Some attributes
    /\ (forall entity,
          entity <> PyDict.get "entity" (match_info request) ->
          getEntity entity s = getEntity entity self
          /\ getAttributes entity s = getAttributes entity self)
    /\ (forall entity, getEntity entity (clearEntities s) = None)
    /\ getAttributes (PyDict.get "entity" (match_info request)) (clearEntities s)
       = Some attributes.
Proof.
  intros Ha Hj Hs Hat. unfold _haStateUpdate.
  rewrite verify_then_authorized by assumption.
  unfold bind, request_json, lift, modify, ret. rewrite Hj. simpl.
  rewrite Hs. simpl. rewrite Hat. simpl.
  eexists _, _. split; [reflexivity|].
  unfold getEntity, getAttributes, clearEntities. simpl.
  rewrite !get_set_same.
  repeat split; auto; apply get_set_other; congruence.
Qed.

(** X11.  [_haStateUpdate] writes the state before it reads the attributes:
    an authenticated update whose body has a state but whose attributes
    cannot be read raises, and the entity's state is recorded all the same
    while its attributes stay as they were. *)
Theorem haStateUpdate_partial request self j state e :
  authorized request self = true ->
  json request = Some j ->
  json_item j "state" = Ok state ->
  json_item j "attributes" = Error e ->
  exists s t,
    _haStateUpdate request self = (Raise e, s, t)
    /\ getEntity (PyDict.get "entity" (match_info request)) s = Some state
    /\ forall entity, getAttributes entity s = getAttributes entity self.
Proof.
  intros Ha Hj Hs Hat. unfold _haStateUpdate.
  rewrite verify_then_authorized by assumption.
  unfold bind, request_json, lift, modify, ret, raise. rewrite Hj. simpl.
  rewrite Hs. simpl. rewrite Hat. simpl.
  eexists _, _. split; [reflexivity|].
  unfold getEntity, getAttributes. simpl. rewrite get_set_same. auto.
Qed.

Lemma haEventUpdate_state amb request self :
  exec (Handle h_haEventUpdate amb request) self
  = with_events (getEvents self ++ recorded_event self request) self.
Proof.
  simpl. unfold _haEventUpdate, recorded_event, getEvents.
  destruct (authorized request self) eqn:Ha.
  - rewrite verify_then_authorized by assumption.
    unfold bind, request_json, modify, ret, raise.
    destruct (json request); simpl; [reflexivity|].
    rewrite app_nil_r. now destruct self.
  - rewrite verify_then_unauthorized by assumption. simpl.
    rewrite app_nil_r. now destruct self.
Qed.

(** X12.  Events are recorded in the order they arrive: after any sequence
    of requests to [_haEventUpdate], [getEvents] is what it was before,
    followed, request by request, by the name and the body of each request
    that carried a credential and a JSON body; the other requests add
    nothing. *)
Theorem haEventUpdate_in_order amb requests self :
  getEvents (run (map (Handle h_haEventUpdate amb) requests) self)
  = getEvents self ++ flat_map (recorded_event self) requests.
Proof.
  revert self. induction requests as [|request requests IH]; intros self.
  - simpl. now rewrite app_nil_r.
  - cbn [map run fold_left flat_map].
    change (fold_left (fun s op => exec op s) ?l ?s0) with (run l s0).
    rewrite IH, haEventUpdate_state.
    unfold getEvents at 1. cbn [_events with_events].
    rewrite <- app_assoc. reflexivity.
Qed.

(** X13.  An authenticated [_createNotification] with a JSON object or
    array makes it the notification [getNotification] returns and an
    authenticated [_dismissNotification] with a JSON body clears it; but a
    dismissal whose body is not JSON raises and leaves the notification in
    place, and a creation whose body is a JSON scalar raises and changes
    nothing. *)
Theorem notification_lifecycle request self :
  authorized request self = true ->
  (forall j,
      json request = Some j ->
      (forall j', json_copy j = Ok j' ->
         fst (fst (_createNotification request self)) = Return EmptyResponse
         /\ getNotification (snd (fst (_createNotification request self)))
            = Some j)
      /\ (forall e, json_copy j = Error e ->
           _createNotification request self = (Raise e, self, [VerifyHeader true]))
      /\ fst (fst (_dismissNotification request self)) = Return EmptyResponse
      /\ getNotification (snd (fst (_dismissNotification request self))) = None)
  /\ (json request = None ->
      _dismissNotification request self
      = (Raise (PyError "JSONDecodeError"), self, [VerifyHeader true])).
Proof.
  intros Ha. unfold _createNotification, _dismissNotification.
  rewrite !verify_then_authorized by assumption.
  unfold bind, request_json, lift, modify, ret, raise.
  split.
  - intros j Hj. rewrite Hj. simpl. repeat split.
    + destruct j; simpl in *; try discriminate; reflexivity.
    + destruct j; simpl in *; try discriminate; reflexivity.
    + intros e He. rewrite He. reflexivity.
  - intros Hj. rewrite Hj. reflexivity.
Qed.

(** X14.  An authenticated options update for the slug [self] whose body
    has an object or array under "options" replaces the options, and
    [_selfInfo] then reports the new options with the add-on's slug; when
    the body has no usable "options" entry the call raises and the server
    object is unchanged. *)
Theorem updateOptions_self request self j :
  authorized request self = true ->
  PyDict.get "slug" (match_info request) = Some "self" ->
  json request = Some j ->
  (forall options options',
      json_item j "options" = Ok options ->
      json_copy options = Ok options' ->
      exists s t,
        _updateOptions request self
        = (Return (_formatDataResponse (JDict [])), s, t)
        /\ forall request',
            authorized request' s = true ->
            fst (fst (_selfInfo request' s))
            = Return (_formatDataResponse
                        (JDict [("webui", JStr "http://some/address");
                                ("ingress_url", JStr "fill me in later");
                                ("slug", JStr (_addon_slug self));
                                ("options", options)])))
  /\ (forall e, json_item j "options" = Error e ->
       _updateOptions request self = (Raise e, self, [VerifyHeader true]))
  /\ (forall options e,
       json_item j "options" = Ok options ->
       json_copy options = Error e ->
       _updateOptions request self = (Raise e, self, [VerifyHeader true])).
Proof.
  intros Ha Hk Hj.
  assert (Heq : _updateOptions request self
                = match json_item j "options" with
                  | Error e => (Raise e, self, [VerifyHeader true])
                  | Ok options =>
                      match json_copy options with
                      | Error e => (Raise e, self, [VerifyHeader true])
                      | Ok options' =>
                          (Return (_formatDataResponse (JDict [])),
                           with_options options' self, [VerifyHeader true])
                      end
                  end).
  { unfold _updateOptions. rewrite Hk. simpl.
    unfold bind, request_json, lift, modify, ret, raise.
    rewrite verifyHeader_authorized by assumption. rewrite Hj.
    destruct (json_item j "options") as [options|e]; [|reflexivity].
    destruct (json_copy options); reflexivity. }
  rewrite Heq. split; [|split].
  - intros options options' Ho Hc. rewrite Ho, Hc.
    eexists _, _. split; [reflexivity|].
    intros request' Ha'. unfold _selfInfo.
    rewrite verify_then_authorized by assumption.
    unfold bind, gets, ret. simpl.
    destruct options; simpl in Hc; try discriminate; injection Hc as <-;
      reflexivity.
  - intros e He. rewrite He. reflexivity.
  - intros options e Ho Hc. rewrite Ho, Hc. reflexivity.
Qed.

End Recorded.

(** ** Add-ons *)

Lemma set_set_get {K V : Type} {EK : Eqb K} (k : K) (v v' : V) (d : dict K V) :
  PyDict.get k d = Some v -> PyDict.set k v (PyDict.set k v' d) = d.
Proof.
  induction d as [|[k0 v0] d IH]; simpl; [discriminate|].
  destruct (eqb k k0) eqn:E; simpl; rewrite E.
  - now intros [= ->].
  - intros Hg. now rewrite IH.
Qed.

Lemma fold_set_get (kv : list (string * Json)) : forall (d : Addon) k,
  PyDict.get k (fold_left (fun acc kv => PyDict.set (fst kv) (snd kv) acc) kv d)
  = match last_binding k kv with
    | Some v => Some v
    | None => PyDict.get k d
    end.
Proof.
  induction kv as [|[k1 v1] kv IH]; intros d k; simpl; [reflexivity|].
  rewrite IH. destruct (last_binding k kv); [reflexivity|].
  destruct (String.eqb k k1) eqn:E.
  - apply String.eqb_eq in E. subst k1. apply get_set_same.
  - apply get_set_other. intros ->. rewrite String.eqb_refl in E. discriminate.
Qed.

Lemma replace_nth_length {A} (i : nat) (x : A) (l : list A) :
  List.length (replace_nth i x l) = List.length l.
Proof.
  revert i. induction l as [|y l IH]; intros [|i]; simpl; auto.
Qed.

Lemma nth_replace_nth_same {A} (i : nat) (x d : A) (l : list A) :
  (i < List.length l)%nat -> nth i (replace_nth i x l) d = x.
Proof.
  revert i. induction l as [|y l IH]; intros [|i]; simpl; try lia; auto.
  intros Hi. apply IH. lia.
Qed.

Lemma nth_replace_nth_other {A} (i i' : nat) (x d : A) (l : list A) :
  i' <> i -> nth i' (replace_nth i x l) d = nth i' l d.
Proof.
  revert i i'. induction l as [|y l IH]; intros [|i] [|i'] Hne; simpl; auto;
    try congruence.
Qed.

Lemma addon_found_lt slug (l : list Addon) i :
  addon slug l = Ok (Some i) -> (i < List.length l)%nat.
Proof.
  revert i. induction l as [|a l IH]; intros i; simpl; [discriminate|].
  destruct (PyDict.get "slug" a); [|discriminate].
  destruct (json_eq_str j slug).
  - intros [= <-]. lia.
  - destruct (addon slug l) as [[i0|]|]; try discriminate.
    intros [= <-]. specialize (IH i0 eq_refl). lia.
Qed.

Lemma addon_get_set_other (a : Addon) k k' v default :
  k <> k' -> addon_get (PyDict.set k v a) k' default = addon_get a k' default.
Proof. intros Hne. unfold addon_get. now rewrite get_set_other. Qed.

Lemma switch_addon_back slug (l : list Addon) : forall l',
  switch_addon slug "stopped" "started" l = None ->
  switch_addon slug "started" "stopped" l = Some l' ->
  switch_addon slug "stopped" "started" l' = Some l.
Proof.
  induction l as [|a l IH]; intros l'; simpl; [discriminate|].
  destruct (json_eq_str (addon_get a "slug" (JStr EmptyString)) slug) eqn:Es;
    simpl.
  - destruct (json_eq_str (addon_get a "state" JNull) (Some "stopped")) eqn:E1;
      [discriminate|].
    destruct (json_eq_str (addon_get a "state" JNull) (Some "started")) eqn:E2.
    + intros _ [= <-]. simpl.
      rewrite addon_get_set_other by discriminate. rewrite Es. simpl.
      unfold addon_get at 1. rewrite get_set_same. simpl.
      f_equal. f_equal. apply set_set_get.
      unfold addon_get in E2.
      destruct (PyDict.get "state" a) as [[| | |st| |]|]; try discriminate.
      simpl in E2. apply String.eqb_eq in E2. now subst st.
    + destruct (switch_addon slug "stopped" "started" l); [discriminate|].
      destruct (switch_addon slug "started" "stopped" l) as [l0|];
        [|discriminate].
      intros _ [= <-]. simpl. rewrite Es, E1. simpl.
      now rewrite (IH l0).
  - destruct (switch_addon slug "stopped" "started" l); [discriminate|].
    destruct (switch_addon slug "started" "stopped" l) as [l0|];
      [|discriminate].
    intros _ [= <-]. simpl. rewrite Es. simpl.
    now rewrite (IH l0).
Qed.

Lemma switch_addon_first slug (l : list Addon) a :
  find (fun addon =>
          json_eq_str (addon_get addon "slug" (JStr EmptyString)) slug) l
  = Some a ->
  addon_get a "state" JNull = JStr "started" ->
  exists l',
    switch_addon slug "started" "stopped" l = Some l'
    /\ find (fun addon =>
               json_eq_str (addon_get addon "slug" (JStr EmptyString)) slug) l'
       = Some (PyDict.set "state" (JStr "stopped") a).
Proof.
  induction l as [|a0 l IH]; simpl; [discriminate|].
  destruct (json_eq_str (addon_get a0 "slug" (JStr EmptyString)) slug) eqn:Es;
    simpl.
  - intros [= ->] Hst. rewrite Hst. simpl.
    eexists. split; [reflexivity|]. simpl.
    rewrite addon_get_set_other by discriminate. now rewrite Es.
  - intros Hf Hst. destruct (IH Hf Hst) as (l' & Hsw & Hf').
    rewrite Hsw. simpl. eexists. split; [reflexivity|]. simpl.
    now rewrite Es.
Qed.

Section Addons.
Context {HH : Helpers} {HB : BaseServer}.

Lemma stopAddon_eq request self :
  authorized request self = true ->
  _stopAddon request self
  = match switch_addon (PyDict.get "slug" (match_info request))
            "started" "stopped" (_addons self) with
    | Some l' =>
        (Return (_formatDataResponse (JDict [])), with_addons l' self,
         [VerifyHeader true])
    | None => (Raise (Http HTTPBadRequest), self, [VerifyHeader true])
    end.
Proof.
  intros Ha. unfold _stopAddon.
  rewrite verify_then_authorized by assumption.
  unfold bind, gets, modify, ret, raise. simpl.
  now destruct (switch_addon _ _ _ _).
Qed.

Lemma startAddon_eq request self :
  authorized request self = true ->
  _startAddon request self
  = match switch_addon (PyDict.get "slug" (match_info request))
            "stopped" "started" (_addons self) with
    | Some l' =>
        (Return (_formatDataResponse (JDict [])), with_addons l' self,
         [VerifyHeader true])
    | None => (Raise (Http HTTPBadRequest), self, [VerifyHeader true])
    end.
Proof.
  intros Ha. unfold _startAddon.
  rewrite verify_then_authorized by assumption.
  unfold bind, gets, modify, ret, raise. simpl.
  now destruct (switch_addon _ _ _ _).
Qed.

Lemma addonInfo_eq request self :
  authorized request self = true ->
  _addonInfo request self
  = match find (fun addon =>
                  json_eq_str (addon_get addon "slug" (JStr EmptyString))
                    (PyDict.get "slug" (match_info request)))
            (_addons self) with
    | Some a =>
        (Return (_formatDataResponse
                   (JDict [("boot", addon_get a "boot" JNull);
                           ("watchdog", addon_get a "watchdog" JNull);
                           ("state", addon_get a "state" JNull)])),
         self, [VerifyHeader true])
    | None => (Raise (Http HTTPBadRequest), self, [VerifyHeader true])
    end.
Proof.
  intros Ha. unfold _addonInfo.
  rewrite verify_then_authorized by assumption.
  unfold bind, gets, ret, raise. simpl.
  now destruct (find _ _).
Qed.

(** X15.  Starting undoes stopping: when an authenticated start request is
    refused (no add-on with this slug is stopped) and the same request
    succeeds as a stop, then starting again succeeds and gives back exactly
    the server object from before the stop. *)
Theorem stop_then_start request self :
  authorized request self = true ->
  fst (fst (_startAddon request self)) = Raise (Http HTTPBadRequest) ->
  fst (fst (_stopAddon request self))
  = Return (_formatDataResponse (JDict [])) ->
  _startAddon request (snd (fst (_stopAddon request self)))
  = (Return (_formatDataResponse (JDict [])), self, [VerifyHeader true]).
Proof.
  intros Ha. rewrite startAddon_eq, stopAddon_eq by assumption.
  destruct (switch_addon _ "stopped" "started" (_addons self)) eqn:E1; simpl;
    [discriminate|].
  destruct (switch_addon _ "started" "stopped" (_addons self)) as [l'|] eqn:E2;
    simpl; [|discriminate].
  intros _ _.
  rewrite startAddon_eq by exact Ha. simpl.
  rewrite (switch_addon_back _ _ _ E1 E2).
  now destruct self.
Qed.

(** X16.  [_addonInfo] follows [_stopAddon]: when an authenticated info
    request reports an add-on as started, the same request sent as a stop
    succeeds, and the info request then reports the add-on as stopped, with
    the boot and watchdog values it had. *)
Theorem addonInfo_after_stop request self boot watchdog :
  authorized request self = true ->
  fst (fst (_addonInfo request self))
  = Return (_formatDataResponse
              (JDict [("boot", boot); ("watchdog", watchdog);
                      ("state", JStr "started")])) ->
  fst (fst (_stopAddon request self)) = Return (_formatDataResponse (JDict []))
  /\ fst (fst (_addonInfo request (snd (fst (_stopAddon request self)))))
     = Return (_formatDataResponse
                 (JDict [("boot", boot); ("watchdog", watchdog);
                         ("state", JStr "stopped")])).
Proof.
  intros Ha. rewrite addonInfo_eq, stopAddon_eq by assumption.
  destruct (find _ (_addons self)) as [a|] eqn:Ef; simpl; [|discriminate].
  intros [= Hb Hw Hs].
  destruct (switch_addon_first _ _ _ Ef Hs) as (l' & Hsw & Hf').
  rewrite Hsw. simpl. split; [reflexivity|].
  rewrite addonInfo_eq by exact Ha. simpl.
  rewrite Hf'. simpl.
  rewrite !addon_get_set_other by discriminate. rewrite Hb, Hw.
  unfold addon_get. now rewrite get_set_same.
Qed.

(** X17.  An options update for an add-on other than [self] is carried out
    without any credential being looked at (the trace is empty): with a JSON
    object as body it returns, and the first add-on with that slug then has,
    for every key, the value of the key's last entry in the body, or the
    value it had when the body has no entry for it; the other add-ons and
    the number of add-ons are unchanged. *)
Theorem updateOptions_other_addon request self sl i kv :
  PyDict.get "slug" (match_info request) = Some sl ->
  sl <> "self" ->
  addon (Some sl) (_addons self) = Ok (Some i) ->
  json request = Some (JDict kv) ->
  exists s,
    _updateOptions request self
    = (Return (_formatDataResponse (JDict [])), s, [])
    /\ List.length (_addons s) = List.length (_addons self)
    /\ (forall k,
          PyDict.get k (nth i (_addons s) [])
          = match last_binding k kv with
            | Some v => Some v
            | None => PyDict.get k (nth i (_addons self) [])
            end)
    /\ (forall i', i' <> i -> nth i' (_addons s) [] = nth i' (_addons self) []).
Proof.
  intros Hk Hne Hf Hj. unfold _updateOptions. rewrite Hk.
  assert (E : eqb (Some sl) (Some "self") = false).
  { simpl. destruct (String.eqb sl "self") eqn:E; [|reflexivity].
    apply String.eqb_eq in E. contradiction. }
  rewrite E. unfold bind, gets, lift, request_json, modify, ret, raise.
  rewrite Hf, Hj. simpl.
  eexists. split; [reflexivity|]. simpl.
  rewrite replace_nth_length. split; [reflexivity|]. split.
  - intros k. rewrite nth_replace_nth_same by (eapply addon_found_lt; eassumption).
    apply fold_set_get.
  - intros i' Hi. now apply nth_replace_nth_other.
Qed.

End Addons.

(** ** The configuration *)

Lemma same_config_refl s : same_config s s.
Proof. repeat split. Qed.

Lemma same_config_trans s1 s2 s3 :
  same_config s1 s2 -> same_config s2 s3 -> same_config s1 s3.
Proof.
  unfold same_config. intros (?&?&?&?&?&?&?) (?&?&?&?&?&?&?).
  repeat split; congruence.
Qed.

Section Config.
Context {HH : Helpers} {HB : BaseServer}.

Lemma handle_same_config h amb request :
  h <> h_newSnapshot -> stable same_config (handle h amb request).
Proof.
  pose proof same_config_refl as Hr.
  pose proof same_config_trans as Ht.
  destruct h; simpl; try congruence; intros _; unfold_handler;
    unfold set_snapshot, set_snapshot_data, del_snapshot, del_snapshot_data;
    stable_tac ltac:(repeat split).
Qed.

Lemma exec_same_config op self : same_config self (exec op self).
Proof.
  destruct op as [h amb request|]; simpl.
  - assert (Hd : h = h_newSnapshot \/ h <> h_newSnapshot)
      by (destruct h; auto; right; discriminate).
    destruct Hd as [->|Hne]; [|now apply handle_same_config].
    simpl.
    destruct (newSnapshot_run amb request self)
      as [Hl|Hl Hj|j Hl Hj Hi|j o s t Hl Hj Hi Hb Hlr]; simpl;
      try (repeat split; fail).
    inversion Hlr; subst; repeat split.
  - rewrite toggle_state. repeat split.
Qed.

(** X19.  No request and no toggle changes the configuration: after any
    sequence of operations the credential, the size bounds of new
    snapshots, the user name and password, the port and the add-on's own
    slug are those the server object started with. *)
Theorem run_keeps_configuration ops self :
  _auth_token (run ops self) = _auth_token self
  /\ _min_snapshot_size (run ops self) = _min_snapshot_size self
  /\ _max_snapshot_size (run ops self) = _max_snapshot_size self
  /\ _username (run ops self) = _username self
  /\ _password (run ops self) = _password self
  /\ _addon_slug (run ops self) = _addon_slug self
  /\ _ports_server (run ops self) = _ports_server self.
Proof.
  change (same_config self (run ops self)).
  revert self. induction ops as [|op ops IH]; intros self; simpl.
  - apply same_config_refl.
  - eapply same_config_trans; [apply exec_same_config | apply IH].
Qed.

End Config.

(** ** The further properties on sample requests *)

Lemma spec_codec_keeps_slug :
  forall id name date padSize included_folders included_addons password data info,
    createSnapshotTar id name date padSize included_folders included_addons
      password = Ok data ->
    parseSnapshotInfo data = Ok info ->
    slug info = id.
Proof.
  intros id name date padSize f a p data info Hc Hp. simpl in Hc, Hp.
  unfold SpecModel.createSnapshotTar in Hc.
  destruct (SpecModel.as_text name); destruct (SpecModel.as_manifest f);
    destruct (SpecModel.as_manifest a); destruct (SpecModel.as_password p);
    try discriminate.
  injection Hc as <-. unfold SpecModel.parseSnapshotInfo in Hp.
  rewrite SpecModelFacts.Decode_Encode in Hp. injection Hp as <-. reflexivity.
Qed.

Lemma read_only_handlers_leave_state_witness :
  read_only h_getSnapshots = true
  /\ snd (fst (handle h_getSnapshots (ambient 0)
                 (slug_request token_headers "abc12345") uploaded))
     = uploaded.
Proof.
  split; [reflexivity|].
  exact (read_only_handlers_leave_state h_getSnapshots (ambient 0)
           (slug_request token_headers "abc12345") uploaded eq_refl).
Defined.

Lemma other_handlers_ignore_locks_witness :
  h_uploadSnapshot <> h_newSnapshot
  /\ handle h_uploadSnapshot (ambient 0)
       (upload_request token_headers [sample_blob])
       (with_locks true true (init 8080))
     = match handle h_uploadSnapshot (ambient 0)
               (upload_request token_headers [sample_blob]) (init 8080) with
       | (o, s, t) => (o, with_locks true true s, t)
       end.
Proof.
  assert (Hne : h_uploadSnapshot <> h_newSnapshot) by discriminate.
  split; [exact Hne|].
  exact (other_handlers_ignore_locks h_uploadSnapshot (ambient 0)
           (upload_request token_headers [sample_blob]) (init 8080) true true
           Hne).
Defined.

Lemma newSnapshot_raise_leaves_state_witness :
  _newSnapshot (ambient 0) (create_request no_headers) (init 8080)
  = (Raise (Http HTTPUnauthorized), init 8080,
     [Acquire snapshot_lock; Acquire snapshot_inner_lock; VerifyHeader false;
      Release snapshot_inner_lock; Release snapshot_lock])
  /\ init 8080 = init 8080.
Proof.
  split; [reflexivity|].
  exact (newSnapshot_raise_leaves_state (ambient 0) (create_request no_headers)
           (init 8080) _ _ _ eq_refl).
Defined.

(** The sample creation on any server with the default configuration and
    free locks. *)
Lemma sample_creation_on draw self :
  _snapshot_lock self = false ->
  _snapshot_inner_lock self = false ->
  _auth_token self = "test_header" ->
  _min_snapshot_size self = 1024 * 1024 * 3 ->
  _max_snapshot_size self = 1024 * 1024 * 5 ->
  _newSnapshot (ambient draw) (create_request token_headers) self
  = (Return (_formatDataResponse (JDict [("slug", JStr "abcdefgh")])),
     stored "abcdefgh" (created_info draw) (created_blob draw) self,
     created_trace).
Proof.
  intros Hl Hi Htoken Hmin Hmax.
  assert (Ha : authorized (create_request token_headers) self = true)
    by (unfold authorized; rewrite Htoken; reflexivity).
  pose proof (newSnapshot_succeeds (ambient draw) (create_request token_headers)
                self nightly (JStr "nightly") (JList [JStr "share"])
                JNull JNull "nightly" ["share"] [] EmptyString
                Hl Hi Ha eq_refl eq_refl eq_refl eq_refl eq_refl
                eq_refl eq_refl eq_refl eq_refl) as Hrun.
  rewrite Hmin, Hmax in Hrun. exact Hrun.
Qed.

Lemma newSnapshot_inserts_witness :
  PyDict.keys (_snapshots crowded) = ["abc12345"; "abcdefgh"; "zzz99999"]
  /\ _newSnapshot (ambient 0) (create_request token_headers) crowded
     = (Return (_formatDataResponse (JDict [("slug", JStr "abcdefgh")])),
        stored "abcdefgh" (created_info 0) (created_blob 0) crowded,
        created_trace)
  /\ exists info data,
      parseSnapshotInfo data = Ok info
      /\ PyDict.get (generateId (random_ids (ambient 0)) 8)
           (_snapshots (stored "abcdefgh" (created_info 0) (created_blob 0)
                          crowded))
         = Some info
      /\ PyDict.get (generateId (random_ids (ambient 0)) 8)
           (_snapshot_data (stored "abcdefgh" (created_info 0) (created_blob 0)
                              crowded))
         = Some data
      /\ PyDict.keys
           (_snapshots (stored "abcdefgh" (created_info 0) (created_blob 0)
                          crowded))
         = (if PyDict.mem (generateId (random_ids (ambient 0)) 8)
                 (_snapshots crowded)
            then PyDict.keys (_snapshots crowded)
            else PyDict.keys (_snapshots crowded)
                 ++ [generateId (random_ids (ambient 0)) 8])
      /\ PyDict.keys
           (_snapshot_data (stored "abcdefgh" (created_info 0) (created_blob 0)
                              crowded))
         = (if PyDict.mem (generateId (random_ids (ambient 0)) 8)
                 (_snapshot_data crowded)
            then PyDict.keys (_snapshot_data crowded)
            else PyDict.keys (_snapshot_data crowded)
                 ++ [generateId (random_ids (ambient 0)) 8])
      /\ forall k, k <> generateId (random_ids (ambient 0)) 8 ->
           PyDict.get k
             (_snapshots (stored "abcdefgh" (created_info 0) (created_blob 0)
                            crowded))
           = PyDict.get k (_snapshots crowded)
           /\ PyDict.get k
                (_snapshot_data (stored "abcdefgh" (created_info 0)
                                   (created_blob 0) crowded))
              = PyDict.get k (_snapshot_data crowded).
Proof.
  split; [reflexivity|].
  split; [exact (sample_creation_on 0 crowded eq_refl eq_refl eq_refl eq_refl
                   eq_refl)|].
  exact (newSnapshot_inserts (ambient 0) (create_request token_headers)
           crowded
           (_formatDataResponse (JDict [("slug", JStr "abcdefgh")]))
           (stored "abcdefgh" (created_info 0) (created_blob 0) crowded)
           created_trace
           (sample_creation_on 0 crowded eq_refl eq_refl eq_refl eq_refl
              eq_refl)).
Defined.

Lemma uploadSnapshot_chunking_witness :
  headers (upload_request token_headers [sample_blob]) "X-Supervisor-Token"
  = headers split_upload "X-Supervisor-Token"
  /\ headers (upload_request token_headers [sample_blob]) "Authorization"
     = headers split_upload "Authorization"
  /\ multipart (upload_request token_headers [sample_blob])
     = Some [[sample_blob]]
  /\ multipart split_upload
     = Some [[firstn 10 sample_blob; skipn 10 sample_blob]]
  /\ Forall (fun chunk : bytes => chunk <> []) [sample_blob]
  /\ Forall (fun chunk : bytes => chunk <> [])
       [firstn 10 sample_blob; skipn 10 sample_blob]
  /\ List.concat [sample_blob]
     = List.concat [firstn 10 sample_blob; skipn 10 sample_blob]
  /\ _uploadSnapshot (upload_request token_headers [sample_blob]) (init 8080)
     = _uploadSnapshot split_upload (init 8080).
Proof.
  assert (H1 : Forall (fun chunk : bytes => chunk <> []) [sample_blob])
    by (repeat constructor; discriminate).
  assert (H2 : Forall (fun chunk : bytes => chunk <> [])
                 [firstn 10 sample_blob; skipn 10 sample_blob])
    by (repeat constructor; discriminate).
  split; [reflexivity|]. split; [reflexivity|]. split; [reflexivity|].
  split; [reflexivity|]. split; [exact H1|]. split; [exact H2|].
  split; [reflexivity|].
  exact (uploadSnapshot_chunking (upload_request token_headers [sample_blob])
           split_upload (init 8080) [sample_blob] [] 
           [firstn 10 sample_blob; skipn 10 sample_blob] []
           eq_refl eq_refl eq_refl eq_refl H1 H2 eq_refl).
Defined.

Lemma uploadSnapshot_listed_last_witness :
  PyDict.values (_snapshots uploaded) = [sample_info]
  /\ authorized (upload_request token_headers [third_blob]) uploaded = true
  /\ multipart (upload_request token_headers [third_blob]) = Some [[third_blob]]
  /\ parseSnapshotInfo (read_chunks [third_blob] []) = Ok third_info
  /\ PyDict.mem (slug third_info) (_snapshots uploaded) = false
  /\ authorized (slug_request token_headers "abc12345") uploaded = true
  /\ fst (fst (_getSnapshots (slug_request token_headers "abc12345") uploaded))
     = Return (_formatDataResponse
                 (JDict [("snapshots",
                          JList (map info_json
                                   (PyDict.values (_snapshots uploaded))))]))
  /\ fst (fst (_getSnapshots (slug_request token_headers "abc12345")
                 (snd (fst (_uploadSnapshot
                              (upload_request token_headers [third_blob])
                              uploaded)))))
     = Return (_formatDataResponse
                 (JDict [("snapshots",
                          JList (map info_json
                                   (PyDict.values (_snapshots uploaded))
                                 ++ [info_json third_info]))])).
Proof.
  split; [reflexivity|].
  split; [reflexivity|]. split; [reflexivity|]. split; [reflexivity|].
  split; [reflexivity|]. split; [reflexivity|].
  exact (uploadSnapshot_listed_last
           (upload_request token_headers [third_blob]) uploaded
           [third_blob] [] third_info
           (slug_request token_headers "abc12345")
           eq_refl eq_refl eq_refl eq_refl eq_refl).
Defined.

Lemma deleteSnapshot_keeps_others_witness :
  PyDict.keys (_snapshots crowded) = ["abc12345"; "abcdefgh"; "zzz99999"]
  /\ _deleteSnapshot (slug_request token_headers "abcdefgh") crowded
     = (Return (_formatDataResponse (JStr "deleted")),
        snd (fst (_deleteSnapshot (slug_request token_headers "abcdefgh")
                    crowded)),
        [VerifyHeader true; DelSnapshot "abcdefgh"; DelSnapshotData "abcdefgh"])
  /\ PyDict.keys
       (_snapshots
          (snd (fst (_deleteSnapshot (slug_request token_headers "abcdefgh")
                       crowded))))
     = ["abc12345"; "zzz99999"]
  /\ exists k,
      PyDict.get "slug" (match_info (slug_request token_headers "abcdefgh"))
      = Some k
      /\ PyDict.keys
           (_snapshots
              (snd (fst (_deleteSnapshot
                           (slug_request token_headers "abcdefgh") crowded))))
         = filter (fun k' => negb (String.eqb k k'))
             (PyDict.keys (_snapshots crowded))
      /\ PyDict.keys
           (_snapshot_data
              (snd (fst (_deleteSnapshot
                           (slug_request token_headers "abcdefgh") crowded))))
         = filter (fun k' => negb (String.eqb k k'))
             (PyDict.keys (_snapshot_data crowded))
      /\ forall k', k' <> k ->
           PyDict.get k'
             (_snapshots
                (snd (fst (_deleteSnapshot
                             (slug_request token_headers "abcdefgh") crowded))))
           = PyDict.get k' (_snapshots crowded)
           /\ PyDict.get k'
                (_snapshot_data
                   (snd (fst (_deleteSnapshot
                                (slug_request token_headers "abcdefgh")
                                crowded))))
              = PyDict.get k' (_snapshot_data crowded).
Proof.
  split; [reflexivity|]. split; [reflexivity|]. split; [reflexivity|].
  exact (deleteSnapshot_keeps_others (slug_request token_headers "abcdefgh")
           crowded _ _ _ eq_refl).
Defined.

Lemma records_keyed_by_slug_witness :
  PyDict.get "abc12345"
    (_snapshots
       (run [Handle h_uploadSnapshot (ambient 0)
               (upload_request token_headers [sample_blob])]
          (init 8080)))
  = Some sample_info
  /\ slug sample_info = "abc12345".
Proof.
  split; [reflexivity|].
  exact (records_keyed_by_slug spec_codec_keeps_slug 8080
           [Handle h_uploadSnapshot (ambient 0)
              (upload_request token_headers [sample_blob])]
           "abc12345" sample_info eq_refl).
Defined.

Lemma haStateUpdate_recorded_witness :
  authorized state_request (init 8080) = true
  /\ json state_request
     = Some (JDict [("state", JStr "on");
                    ("attributes", JDict [("friendly_name", JStr "Door")])])
  /\ json_item (JDict [("state", JStr "on");
                       ("attributes", JDict [("friendly_name", JStr "Door")])])
       "state" = Ok (JStr "on")
  /\ json_item (JDict [("state", JStr "on");
                       ("attributes", JDict [("friendly_name", JStr "Door")])])
       "attributes" = Ok (JDict [("friendly_name", JStr "Door")])
  /\ exists s t,
      _haStateUpdate state_request (init 8080) = (Return EmptyResponse, s, t)
      /\ getEntity (PyDict.get "entity" (match_info state_request)) s
         = Some (JStr "on")
      /\ getAttributes (PyDict.get "entity" (match_info state_request)) s
         = Some (JDict [("friendly_name", JStr "Door")])
      /\ (forall entity,
            entity <> PyDict.get "entity" (match_info state_request) ->
            getEntity entity s = getEntity entity (init 8080)
            /\ getAttributes entity s = getAttributes entity (init 8080))
      /\ (forall entity, getEntity entity (clearEntities s) = None)
      /\ getAttributes (PyDict.get "entity" (match_info state_request))
           (clearEntities s)
         = Some (JDict [("friendly_name", JStr "Door")]).
Proof.
  split; [reflexivity|]. split; [reflexivity|]. split; [reflexivity|].
  split; [reflexivity|].
  exact (haStateUpdate_recorded state_request (init 8080) _ _ _
           eq_refl eq_refl eq_refl eq_refl).
Defined.

Lemma haStateUpdate_partial_witness :
  authorized state_only_request (init 8080) = true
  /\ json state_only_request = Some (JDict [("state", JStr "on")])
  /\ json_item (JDict [("state", JStr "on")]) "state" = Ok (JStr "on")
  /\ json_item (JDict [("state", JStr "on")]) "attributes"
     = Error (PyError "KeyError")
  /\ exists s t,
      _haStateUpdate state_only_request (init 8080)
      = (Raise (PyError "KeyError"), s, t)
      /\ getEntity (PyDict.get "entity" (match_info state_only_request)) s
         = Some (JStr "on")
      /\ forall entity,
          getAttributes entity s = getAttributes entity (init 8080).
Proof.
  split; [reflexivity|]. split; [reflexivity|]. split; [reflexivity|].
  split; [reflexivity|].
  exact (haStateUpdate_partial state_only_request (init 8080) _ _ _
           eq_refl eq_refl eq_refl eq_refl).
Defined.

Lemma notification_lifecycle_witness :
  authorized notify_request (init 8080) = true
  /\ json notify_request = Some (JDict [("message", JStr "hello")])
  /\ json_copy (JDict [("message", JStr "hello")])
     = Ok (JDict [("message", JStr "hello")])
  /\ fst (fst (_createNotification notify_request (init 8080)))
     = Return EmptyResponse
  /\ getNotification (snd (fst (_createNotification notify_request (init 8080))))
     = Some (JDict [("message", JStr "hello")]).
Proof.
  split; [reflexivity|]. split; [reflexivity|]. split; [reflexivity|].
  exact (proj1 (proj1 (notification_lifecycle notify_request (init 8080)
                         eq_refl)
                  (JDict [("message", JStr "hello")]) eq_refl)
           (JDict [("message", JStr "hello")]) eq_refl).
Defined.

Lemma updateOptions_self_witness :
  authorized self_options_request (init 8080) = true
  /\ PyDict.get "slug" (match_info self_options_request) = Some "self"
  /\ json self_options_request
     = Some (JDict [("options", JDict [("use_ssl", JBool true)])])
  /\ json_item (JDict [("options", JDict [("use_ssl", JBool true)])]) "options"
     = Ok (JDict [("use_ssl", JBool true)])
  /\ json_copy (JDict [("use_ssl", JBool true)])
     = Ok (JDict [("use_ssl", JBool true)])
  /\ exists s t,
      _updateOptions self_options_request (init 8080)
      = (Return (_formatDataResponse (JDict [])), s, t)
      /\ forall request',
          authorized request' s = true ->
          fst (fst (_selfInfo request' s))
          = Return (_formatDataResponse
                      (JDict [("webui", JStr "http://some/address");
                              ("ingress_url", JStr "fill me in later");
                              ("slug", JStr (_addon_slug (init 8080)));
                              ("options", JDict [("use_ssl", JBool true)])])).
Proof.
  split; [reflexivity|]. split; [reflexivity|]. split; [reflexivity|].
  split; [reflexivity|]. split; [reflexivity|].
  exact (proj1 (updateOptions_self self_options_request (init 8080) _
                  eq_refl eq_refl eq_refl)
           (JDict [("use_ssl", JBool true)]) (JDict [("use_ssl", JBool true)])
           eq_refl eq_refl).
Defined.

Lemma stop_then_start_witness :
  authorized (addon_request token_headers) (init 8080) = true
  /\ fst (fst (_startAddon (addon_request token_headers) (init 8080)))
     = Raise (Http HTTPBadRequest)
  /\ fst (fst (_stopAddon (addon_request token_headers) (init 8080)))
     = Return (_formatDataResponse (JDict []))
  /\ _startAddon (addon_request token_headers)
       (snd (fst (_stopAddon (addon_request token_headers) (init 8080))))
     = (Return (_formatDataResponse (JDict [])), init 8080, [VerifyHeader true]).
Proof.
  split; [reflexivity|]. split; [reflexivity|]. split; [reflexivity|].
  exact (stop_then_start (addon_request token_headers) (init 8080)
           eq_refl eq_refl eq_refl).
Defined.

Lemma addonInfo_after_stop_witness :
  authorized (addon_request token_headers) (init 8080) = true
  /\ fst (fst (_addonInfo (addon_request token_headers) (init 8080)))
     = Return (_formatDataResponse
                 (JDict [("boot", JStr "auto"); ("watchdog", JBool false);
                         ("state", JStr "started")]))
  /\ fst (fst (_stopAddon (addon_request token_headers) (init 8080)))
     = Return (_formatDataResponse (JDict []))
  /\ fst (fst (_addonInfo (addon_request token_headers)
                 (snd (fst (_stopAddon (addon_request token_headers)
                              (init 8080))))))
     = Return (_formatDataResponse
                 (JDict [("boot", JStr "auto"); ("watchdog", JBool false);
                         ("state", JStr "stopped")])).
Proof.
  split; [reflexivity|]. split; [reflexivity|].
  exact (addonInfo_after_stop (addon_request token_headers) (init 8080)
           (JStr "auto") (JBool false) eq_refl eq_refl).
Defined.

Lemma updateOptions_other_addon_witness :
  PyDict.get "slug" (match_info (addon_request no_headers)) = Some "42"
  /\ "42" <> "self"
  /\ addon (Some "42") (_addons (init 8080)) = Ok (Some 1%nat)
  /\ json (addon_request no_headers) = Some (JDict [("state", JStr "stopped")])
  /\ exists s,
      _updateOptions (addon_request no_headers) (init 8080)
      = (Return (_formatDataResponse (JDict [])), s, [])
      /\ List.length (_addons s) = List.length (_addons (init 8080))
      /\ (forall k,
            PyDict.get k (nth 1 (_addons s) [])
            = match last_binding k [("state", JStr "stopped")] with
              | Some v => Some v
              | None => PyDict.get k (nth 1 (_addons (init 8080)) [])
              end)
      /\ (forall i', i' <> 1%nat ->
            nth i' (_addons s) [] = nth i' (_addons (init 8080)) []).
Proof.
  assert (Hne : "42" <> "self") by discriminate.
  split; [reflexivity|]. split; [exact Hne|]. split; [reflexivity|].
  split; [reflexivity|].
  exact (updateOptions_other_addon (addon_request no_headers) (init 8080)
           "42" 1 [("state", JStr "stopped")] eq_refl Hne eq_refl eq_refl).
Defined.

Lemma detail_download_agree_witness :
  fst (fst (_snapshotDetail (slug_request token_headers "abcdefgh")
              (run crowded_ops (init 8080))))
  = Return (_formatDataResponse (info_json taken_info))
  /\ fst (fst (_snapshotDetail (slug_request token_headers "missing")
                 (run crowded_ops (init 8080))))
     = Raise (Http HTTPNotFound)
  /\ fst (fst (_snapshotDownload (slug_request token_headers "missing")
                 (run crowded_ops (init 8080))))
     = Raise (Http HTTPNotFound)
  /\ exists k info data,
      PyDict.get "slug" (match_info (slug_request token_headers "abcdefgh"))
      = Some k
      /\ PyDict.get k (_snapshots (run crowded_ops (init 8080))) = Some info
      /\ PyDict.get k (_snapshot_data (run crowded_ops (init 8080))) = Some data
      /\ _formatDataResponse (info_json taken_info)
         = _formatDataResponse (info_json info)
      /\ fst (fst (_snapshotDownload (slug_request token_headers "abcdefgh")
                     (run crowded_ops (init 8080))))
         = Return (serve_bytes (slug_request token_headers "abcdefgh") data).
Proof.
  split; [reflexivity|]. split; [reflexivity|]. split.
  - exact (proj1 (detail_download_agree 8080 crowded_ops
                    (slug_request token_headers "missing"))
             (Http HTTPNotFound) eq_refl).
  - exact (proj2 (detail_download_agree 8080 crowded_ops
                    (slug_request token_headers "abcdefgh"))
             (_formatDataResponse (info_json taken_info)) eq_refl).
Defined.
